(** * The image-classification service of [python_service/image_classifier.py]

    A shallow embedding of the Flask service: the Python values it handles,
    a small monad for its effects (the module global [classifier], the
    process environment, calls into PIL / transformers / requests, printed
    lines, exceptions), the three request handlers, [load_model] and the
    [__main__] block, followed by the properties of the service. *)

From Stdlib Require Import String List ZArith QArith Bool Lia DecimalString.
From Stdlib Require Import Init.Byte Sorting.Sorted.
Import ListNotations.
Set Warnings "-register-all".
Local Close Scope Q_scope.
Local Open Scope string_scope.
Local Open Scope Z_scope.

(** ** Exceptions *)

(** An instance of a subclass of [Exception]: what the libraries the service
    calls raise.  [exc_text] is [str(e)]. *)
Record exc_info : Type := MkExc { exc_class : string; exc_text : string }.

(** What can unwind the Python stack in this program: an [Exception]
    instance, or the [SystemExit] of [sys.exit(code)], which derives from
    [BaseException] only and so passes through [except Exception]. *)
Inductive pyexn : Type :=
| PyException (e : exc_info)
| SystemExit (code : Z).

(** Result of a call that touches no program state. *)
Inductive pyres (A : Type) : Type :=
| Returns (a : A)
| Raises (e : exc_info).
Arguments Returns {A} a.
Arguments Raises {A} e.

(** How a computation with effects ends. *)
Inductive completion (A : Type) : Type :=
| Normal (a : A)
| Abrupt (e : pyexn).
Arguments Normal {A} a.
Arguments Abrupt {A} e.

Definition TypeError (msg : string) : exc_info := MkExc "TypeError" msg.
Definition KeyError (key : string) : exc_info := MkExc "KeyError" ("'" ++ key ++ "'").

Definition bytes : Type := list byte.

Section Service.

(** The types the program only passes around: Python floats (scores are
    copied and compared, never computed with), PIL images, the transformers
    pipeline object and the response object of [requests]. *)
Context {pyfloat image pipe http_response : Type}.

(** ** Python values that travel as JSON *)

(** A [dict] is kept as its items in insertion order (keys distinct). *)
Inductive pyval : Type :=
| PNone
| PBool (b : bool)
| PInt (z : Z)
| PFloat (f : pyfloat)
| PStr (s : string)
| PList (l : list pyval)
| PDict (d : list (string * pyval)).

Fixpoint assoc {V : Type} (k : string) (d : list (string * V)) : option V :=
  match d with
  | [] => None
  | (k', v) :: d' => if String.eqb k k' then Some v else assoc k d'
  end.

Definition type_name (v : pyval) : string :=
  match v with
  | PNone => "NoneType"
  | PBool _ => "bool"
  | PInt _ => "int"
  | PFloat _ => "float"
  | PStr _ => "str"
  | PList _ => "list"
  | PDict _ => "dict"
  end.

Definition is_str (k : string) (v : pyval) : bool :=
  match v with
  | PStr s => String.eqb s k
  | _ => false
  end.

Definition is_substring (k s : string) : bool :=
  match String.index 0 k s with
  | Some _ => true
  | None => false
  end.

(** [k in v] for a string [k]: key membership on a dict, element equality
    on a list, substring test on a str, [TypeError] on everything else. *)
Definition py_contains (k : string) (v : pyval) : pyres bool :=
  match v with
  | PDict d => Returns (match assoc k d with Some _ => true | None => false end)
  | PList l => Returns (existsb (is_str k) l)
  | PStr s => Returns (is_substring k s)
  | _ => Raises (TypeError ("argument of type '" ++ type_name v ++ "' is not iterable"))
  end.

(** [v[k]] for a string [k]. *)
Definition py_getitem (v : pyval) (k : string) : pyres pyval :=
  match v with
  | PDict d =>
      match assoc k d with
      | Some x => Returns x
      | None => Raises (KeyError k)
      end
  | PStr _ => Raises (TypeError "string indices must be integers, not 'str'")
  | PList _ => Raises (TypeError "list indices must be integers or slices, not str")
  | _ => Raises (TypeError ("'" ++ type_name v ++ "' object is not subscriptable"))
  end.

(** [[f(x) for x in l]] stops at the first element on which [f] raises. *)
Fixpoint list_comp {A B : Type} (f : A -> pyres B) (l : list A) : pyres (list B) :=
  match l with
  | [] => Returns []
  | x :: l' =>
      match f x with
      | Raises e => Raises e
      | Returns y =>
          match list_comp f l' with
          | Raises e => Raises e
          | Returns ys => Returns (y :: ys)
          end
      end
  end.

Definition str_of_nat (n : nat) : string := NilEmpty.string_of_uint (Nat.to_uint n).
Definition str_of_Z (z : Z) : string := NilEmpty.string_of_int (Z.to_int z).

(** [sep.join(items)]: every item has to be a str. *)
Fixpoint str_join_from (i : nat) (sep : string) (items : list pyval) : pyres string :=
  match items with
  | [] => Returns ""
  | PStr s :: rest =>
      match rest with
      | [] => Returns s
      | _ :: _ =>
          match str_join_from (S i) sep rest with
          | Returns t => Returns (s ++ sep ++ t)
          | Raises e => Raises e
          end
      end
  | v :: _ =>
      Raises (TypeError ("sequence item " ++ str_of_nat i ++ ": expected str instance, "
                         ++ type_name v ++ " found"))
  end.

Definition str_join : string -> list pyval -> pyres string := str_join_from 0.

(** ** The world outside the program *)

(** One entry of what the classifier returns: [{'label': ..., 'score': ...}]. *)
Record raw_result : Type := MkRaw { label : string; score : pyfloat }.

(** The library calls of the program, each returning or raising. *)
Record World : Type := MkWorld {
  (* transformers.pipeline(task, model=..., device=...) *)
  pipeline : string -> string -> Z -> pyres pipe;
  (* Image.open(BytesIO(data)) *)
  image_open : bytes -> pyres image;
  (* image.mode *)
  mode : image -> string;
  (* image.convert(mode) *)
  convert : image -> string -> pyres image;
  (* classifier(image) *)
  call_pipe : pipe -> image -> pyres (list raw_result);
  (* import requests *)
  import_requests : pyres unit;
  (* requests.get(url, timeout=...) *)
  requests_get : pyval -> Z -> pyres http_response;
  (* response.raise_for_status() *)
  raise_for_status : http_response -> pyres unit;
  (* response.content *)
  content : http_response -> bytes;
  (* int(s) on a str *)
  int_of_str : string -> pyres Z
}.

(** An HTTP request as the handlers see it: [request.files] as the list of
    (field name, file content), [request.get_json()] as its outcome. *)
Inductive request : Type :=
| GetHealth
| PostClassify (files : list (string * bytes))
| PostClassifyUrl (get_json : pyres pyval).

(** What a view returns: [jsonify(body), status]. *)
Record response : Type := MkResponse { body : pyval; status : Z }.

(** Everything observable the program does, in order. *)
Inductive event : Type :=
| EvPrint (line : string)
| EvPipeline (task model : string) (device : Z)
| EvImageOpen (data : bytes)
| EvConvert (img : image) (to_mode : string)
| EvClassify (clf : pipe) (img : image)
| EvImport (module : string)
| EvGet (url : pyval) (timeout : Z)
| EvRaiseForStatus (r : http_response)
| EvAppRun (host : string) (port : Z) (debug : bool)
| EvServed (req : request) (resp : response).

(** ** Program state and the effect monad *)

(** The module global [classifier] and [os.environ]. *)
Record globals : Type := MkGlobals {
  classifier : option pipe;
  environ : list (string * string)
}.

Record run (A : Type) : Type := MkRun {
  trace : list event;
  result : completion A;
  final : globals
}.
Arguments MkRun {A} trace result final.
Arguments trace {A} r.
Arguments result {A} r.
Arguments final {A} r.

(** A computation: from the globals to what it did, how it ended and the
    globals it leaves. *)
Definition M (A : Type) : Type := globals -> run A.

Definition ret {A : Type} (a : A) : M A := fun g => MkRun [] (Normal a) g.

Definition raise {A : Type} (e : pyexn) : M A := fun g => MkRun [] (Abrupt e) g.

(** [m] then [k]: the traces follow each other; an exception in [m] skips [k]. *)
Definition bind {A B : Type} (m : M A) (k : A -> M B) : M B :=
  fun g =>
    match m g with
    | MkRun t (Normal a) g1 =>
        match k a g1 with
        | MkRun t' c g2 => MkRun (t ++ t') c g2
        end
    | MkRun t (Abrupt e) g1 => MkRun t (Abrupt e) g1
    end.

(** [try: m  except Exception as e: h e] *)
Definition try_except {A : Type} (m : M A) (h : exc_info -> M A) : M A :=
  fun g =>
    match m g with
    | MkRun t (Abrupt (PyException e)) g1 =>
        match h e g1 with
        | MkRun t' c g2 => MkRun (t ++ t') c g2
        end
    | r => r
    end.

Definition emit (ev : event) : M unit := fun g => MkRun [ev] (Normal tt) g.

Definition lift {A : Type} (r : pyres A) : M A :=
  match r with
  | Returns a => ret a
  | Raises e => raise (PyException e)
  end.

Definition read_classifier : M (option pipe) := fun g => MkRun [] (Normal (classifier g)) g.

Definition write_classifier (c : pipe) : M unit :=
  fun g => MkRun [] (Normal tt) (MkGlobals (Some c) (environ g)).

(** [os.getenv(key)] *)
Definition getenv (key : string) : M (option string) :=
  fun g => MkRun [] (Normal (assoc key (environ g))) g.

Declare Scope py_scope.
Delimit Scope py_scope with py.
Notation "x <- m ;; k" := (bind m (fun x => k))
  (at level 61, m at next level, right associativity) : py_scope.
Notation "m ;; k" := (bind m (fun _ => k))
  (at level 61, right associativity) : py_scope.
Local Open Scope py_scope.

Definition print (line : string) : M unit := emit (EvPrint line).

(** A library call: recorded in the trace, then it returns or raises. *)
Definition extern {A : Type} (ev : event) (r : pyres A) : M A :=
  emit ev ;; lift r.

(** [os.getenv(key, default)] with a str default. *)
Definition getenv_or (key default : string) : M string :=
  o <- getenv key ;;
  ret (match o with Some v => v | None => default end).

Definition default_model : string := "google/vit-base-patch16-224".

(** ** The program *)

(** [def load_model(model_name)] *)
Definition load_model (w : World) (model_name : string) : M bool :=
  try_except
    (print ("🤖 Loading model: " ++ model_name ++ "...") ;;
     print "   (This may take a few minutes on first run - downloading ~346MB)" ;;
     c <- extern (EvPipeline "image-classification" model_name (-1))
                 (pipeline w "image-classification" model_name (-1)) ;;
     write_classifier c ;;
     print ("✅ Model '" ++ model_name ++ "' loaded successfully!") ;;
     ret true)
    (fun e =>
       print ("❌ Error loading model: " ++ exc_text e) ;;
       ret false).

(** [GET /health] *)
Definition health : M response :=
  c <- read_classifier ;;
  ret (MkResponse
         (PDict [("status", PStr "ok");
                 ("model_loaded", PBool (match c with Some _ => true | None => false end))])
         200).

(** [request.files[key]]: the first file of that name. *)
Definition files_getitem (key : string) (files : list (string * bytes)) : pyres bytes :=
  match assoc key files with
  | Some data => Returns data
  | None => Raises (MkExc "BadRequestKeyError" "400 Bad Request: KeyError")
  end.

Definition files_contains (key : string) (files : list (string * bytes)) : bool :=
  match assoc key files with
  | Some _ => true
  | None => false
  end.

(** [classifier(image)]: the global is looked up again at the call. *)
Definition call_classifier (w : World) (img : image) : M (list raw_result) :=
  c <- read_classifier ;;
  match c with
  | Some clf => extern (EvClassify clf img) (call_pipe w clf img)
  | None => raise (PyException (TypeError "'NoneType' object is not callable"))
  end.

(** [POST /classify] *)
Definition classify_image (w : World) (files : list (string * bytes)) : M response :=
  try_except
    (c <- read_classifier ;;
     match c with
     | None =>
         ret (MkResponse (PDict [("error", PStr "Model not loaded"); ("labels", PList [])]) 500)
     | Some _ =>
         if negb (files_contains "image" files) then
           ret (MkResponse (PDict [("error", PStr "No image file provided");
                                   ("labels", PList [])]) 400)
         else
           image_file <- lift (files_getitem "image" files) ;;
           image <- extern (EvImageOpen image_file) (image_open w image_file) ;;
           image <- (if negb (String.eqb (mode w image) "RGB")
                     then extern (EvConvert image "RGB") (convert w image "RGB")
                     else ret image) ;;
           print "🔍 Classifying image..." ;;
           results <- call_classifier w image ;;
           let labels :=
             fold_left
               (fun labels result =>
                  (labels ++ [PDict [("description", PStr (label result));
                                     ("confidence", PFloat (score result))]])%list)
               (firstn 10 results) [] in
           print ("✅ Classification complete: " ++ str_of_nat (length labels)
                  ++ " labels found") ;;
           names <- lift (list_comp (fun l => py_getitem l "description") (firstn 3 labels)) ;;
           top3 <- lift (str_join ", " names) ;;
           print ("   Top 3: " ++ top3) ;;
           confidence <- lift (match labels with
                               | l0 :: _ => py_getitem l0 "confidence"
                               | [] => Returns (PInt 0)
                               end) ;;
           model <- getenv_or "HF_MODEL" default_model ;;
           ret (MkResponse
                  (PDict [("labels", PList labels);
                          ("colors", PList []);
                          ("objects", PList (firstn 5 labels));
                          ("confidence", confidence);
                          ("source", PStr "local_transformers");
                          ("model", PStr model)])
                  200)
     end)
    (fun e =>
       print ("❌ Classification error: " ++ exc_text e) ;;
       ret (MkResponse (PDict [("error", PStr (exc_text e)); ("labels", PList [])]) 500)).

(** [POST /classify_url] *)
Definition classify_image_url (w : World) (get_json : pyres pyval) : M response :=
  try_except
    (c <- read_classifier ;;
     match c with
     | None =>
         ret (MkResponse (PDict [("error", PStr "Model not loaded"); ("labels", PList [])]) 500)
     | Some _ =>
         data <- lift get_json ;;
         has_url <- lift (py_contains "url" data) ;;
         if negb has_url then
           ret (MkResponse (PDict [("error", PStr "No image URL provided");
                                   ("labels", PList [])]) 400)
         else
           extern (EvImport "requests") (import_requests w) ;;
           url <- lift (py_getitem data "url") ;;
           resp <- extern (EvGet url 10) (requests_get w url 10) ;;
           extern (EvRaiseForStatus resp) (raise_for_status w resp) ;;
           image <- extern (EvImageOpen (content w resp)) (image_open w (content w resp)) ;;
           image <- (if negb (String.eqb (mode w image) "RGB")
                     then extern (EvConvert image "RGB") (convert w image "RGB")
                     else ret image) ;;
           print "🔍 Classifying image from URL..." ;;
           results <- call_classifier w image ;;
           let labels :=
             fold_left
               (fun labels result =>
                  (labels ++ [PDict [("description", PStr (label result));
                                     ("confidence", PFloat (score result))]])%list)
               (firstn 10 results) [] in
           confidence <- lift (match labels with
                               | l0 :: _ => py_getitem l0 "confidence"
                               | [] => Returns (PInt 0)
                               end) ;;
           model <- getenv_or "HF_MODEL" default_model ;;
           ret (MkResponse
                  (PDict [("labels", PList labels);
                          ("colors", PList []);
                          ("objects", PList (firstn 5 labels));
                          ("confidence", confidence);
                          ("source", PStr "local_transformers");
                          ("model", PStr model)])
                  200)
     end)
    (fun e =>
       print ("❌ Classification error: " ++ exc_text e) ;;
       ret (MkResponse (PDict [("error", PStr (exc_text e)); ("labels", PList [])]) 500)).

(** Flask's routing of a request to its view.  An exception that leaves a
    view becomes Flask's own 500 page. *)
Definition dispatch (w : World) (req : request) : M response :=
  match req with
  | GetHealth => health
  | PostClassify files => classify_image w files
  | PostClassifyUrl get_json => classify_image_url w get_json
  end.

Definition flask_handle (w : World) (req : request) : M response :=
  try_except (dispatch w req)
    (fun _ => ret (MkResponse (PStr "Internal Server Error") 500)).

(** [app.run(...)]: the requests that arrive are answered one after the
    other, each in the world as it is when the request arrives; every answer
    is recorded as an [EvServed] event. *)
Fixpoint serve (incoming : list (World * request)) : M unit :=
  match incoming with
  | [] => ret tt
  | (w, req) :: rest =>
      resp <- flask_handle w req ;;
      emit (EvServed req resp) ;;
      serve rest
  end.

Definition app_run (host : string) (port : Z) (debug : bool)
    (incoming : list (World * request)) : M unit :=
  emit (EvAppRun host port debug) ;;
  serve incoming.

Definition sys_exit {A : Type} (code : Z) : M A := raise (SystemExit code).

Definition newline : string := String (Ascii.ascii_of_nat 10) EmptyString.

(** [if __name__ == '__main__':] *)
Definition main (w : World) (incoming : list (World * request)) : M unit :=
  model_name <- getenv_or "HF_MODEL" default_model ;;
  loaded <- load_model w model_name ;;
  (if negb loaded then
     print "❌ Failed to load model. Exiting..." ;;
     sys_exit 1
   else ret tt) ;;
  p <- getenv "PYTHON_SERVICE_PORT" ;;
  port <- lift (match p with
                | Some s => int_of_str w s
                | None => Returns 5000
                end) ;;
  print (newline ++ "🚀 Python Image Classification Service starting...") ;;
  print ("   Model: " ++ model_name) ;;
  print ("   Port: " ++ str_of_Z port) ;;
  print ("   Endpoint: http://localhost:" ++ str_of_Z port ++ "/classify" ++ newline) ;;
  app_run "0.0.0.0" port false incoming.

(** The module body before [__main__], its imports having succeeded:
    [classifier = None]. *)
Definition module_init (env : list (string * string)) : globals := MkGlobals None env.

(** The exit status the interpreter reports for the way the script ended. *)
Definition exit_status (c : completion unit) : Z :=
  match c with
  | Normal _ => 0
  | Abrupt (SystemExit code) => code
  | Abrupt (PyException _) => 1
  end.

(** ** The response contract, in the words of the specification *)

(** [{error: <string>, labels: []}] *)
Definition error_body (msg : string) : pyval :=
  PDict [("error", PStr msg); ("labels", PList [])].

(** [{description: label, confidence: score}] *)
Definition label_entry (r : raw_result) : pyval :=
  PDict [("description", PStr (label r)); ("confidence", PFloat (score r))].

(** The first min(10, length) raw entries, mapped in order. *)
Definition spec_labels (raw : list raw_result) : list pyval :=
  map label_entry (firstn (Nat.min 10 (length raw)) raw).

(** The score of the top entry, or 0 if there is none. *)
Definition top_confidence (raw : list raw_result) : pyval :=
  match raw with
  | r :: _ => PFloat (score r)
  | [] => PInt 0
  end.

(** The envelope of section 3 for a ranked list and the active model. *)
Definition spec_envelope (model : string) (raw : list raw_result) : pyval :=
  PDict [("labels", PList (spec_labels raw));
         ("colors", PList []);
         ("objects", PList (firstn 5 (spec_labels raw)));
         ("confidence", top_confidence raw);
         ("source", PStr "local_transformers");
         ("model", PStr model)].

(** The invariant of section 3 on an envelope [b]. *)
Definition envelope_invariant (b : pyval) : Prop :=
  exists labels objects,
    py_getitem b "labels" = Returns (PList labels) /\
    py_getitem b "objects" = Returns (PList objects) /\
    (length labels <= 10)%nat /\
    (length objects <= 5)%nat /\
    objects = firstn 5 labels /\
    (exists rest, labels = (objects ++ rest)%list) /\
    exists confidence,
      py_getitem b "confidence" = Returns confidence /\
      match labels with
      | l0 :: _ => py_getitem l0 "confidence" = Returns confidence
      | [] => confidence = PInt 0
      end.

(** Raw results, and label entries, compared by a comparison [ge] of scores. *)
Definition score_ge (ge : pyfloat -> pyfloat -> Prop) (a b : raw_result) : Prop :=
  ge (score a) (score b).

Definition confidence_ge (ge : pyfloat -> pyfloat -> Prop) (a b : pyval) : Prop :=
  exists x y,
    py_getitem a "confidence" = Returns (PFloat x) /\
    py_getitem b "confidence" = Returns (PFloat y) /\
    ge x y.

(** [os.getenv('HF_MODEL', 'google/vit-base-patch16-224')] as a value. *)
Definition configured_model (env : list (string * string)) : string :=
  match assoc "HF_MODEL" env with
  | Some v => v
  | None => default_model
  end.

Definition active_model (g : globals) : string := configured_model (environ g).

(** The image the normalisation step hands on. *)
Definition normalized (w : World) (img : image) : pyres image :=
  if String.eqb (mode w img) "RGB" then Returns img else convert w img "RGB".

(** The calls of the classifier / of [requests.get] / of [pipeline] in a trace. *)
Definition classify_calls (t : list event) : list (pipe * image) :=
  flat_map (fun ev => match ev with EvClassify c i => [(c, i)] | _ => [] end) t.

Definition fetch_calls (t : list event) : list (pyval * Z) :=
  flat_map (fun ev => match ev with EvGet u s => [(u, s)] | _ => [] end) t.

Definition pipeline_calls (t : list event) : list (string * string * Z) :=
  flat_map (fun ev => match ev with EvPipeline k m d => [(k, m, d)] | _ => [] end) t.

Definition served (t : list event) : list (request * response) :=
  flat_map (fun ev => match ev with EvServed q r => [(q, r)] | _ => [] end) t.

(** A parsed body on which [in] raises: neither a dict, a list nor a str. *)
Definition not_a_container (v : pyval) : bool :=
  match v with
  | PNone | PBool _ | PInt _ | PFloat _ => true
  | PStr _ | PList _ | PDict _ => false
  end.

(** The outcome of [request.get_json()] is not a JSON object. *)
Definition not_json_object (get_json : pyres pyval) : Prop :=
  forall d, get_json <> Returns (PDict d).

(** [{status: "ok", model_loaded: <bool>}] *)
Definition health_body (loaded : bool) : pyval :=
  PDict [("status", PStr "ok"); ("model_loaded", PBool loaded)].

Definition is_classify (req : request) : bool :=
  match req with
  | GetHealth => false
  | _ => true
  end.

End Service.

Arguments pyval : clear implicits.
Arguments raw_result : clear implicits.
Arguments World : clear implicits.
Arguments request : clear implicits.
Arguments response : clear implicits.
Arguments event : clear implicits.
Arguments globals : clear implicits.
Arguments run : clear implicits.
Arguments M : clear implicits.
Arguments MkRun {pyfloat image pipe http_response A} trace result final.
Arguments trace {pyfloat image pipe http_response A} r.
Arguments result {pyfloat image pipe http_response A} r.
Arguments final {pyfloat image pipe http_response A} r.

(** ** The module body, from its imports to [__main__] *)

(** The imports of the module, each returning or raising, and
    [isinstance(e, C)] for the exception classes named in its [except]
    clauses.  [io], [os] and [sys] are part of the interpreter. *)
Record Imports : Type := MkImports {
  (* from flask import Flask, request, jsonify *)
  import_flask : pyres unit;
  (* from flask_cors import CORS *)
  import_flask_cors : pyres unit;
  (* from PIL import Image *)
  import_pil : pyres unit;
  (* from transformers import pipeline *)
  import_transformers : pyres unit;
  (* import torch *)
  import_torch : pyres unit;
  (* isinstance(e, <the class of that name>) *)
  isinstance : exc_info -> string -> bool
}.

Section Startup.

Context {pyfloat image pipe http_response : Type}.

Declare Scope py_scope.
Notation "x <- m ;; k" := (bind m (fun x => k))
  (at level 61, m at next level, right associativity) : py_scope.
Notation "m ;; k" := (bind m (fun _ => k))
  (at level 61, right associativity) : py_scope.
Local Open Scope py_scope.

(** The first [except C as e] clause whose class [e] is an instance of. *)
Fixpoint find_clause {A : Type} (isinst : exc_info -> string -> bool) (e : exc_info)
    (clauses : list (string * (exc_info -> M pyfloat image pipe http_response A)))
    : option (M pyfloat image pipe http_response A) :=
  match clauses with
  | [] => None
  | (cls, h) :: rest =>
      if isinst e cls then Some (h e) else find_clause isinst e rest
  end.

(** [try: m  except C1 as e: h1 e  except C2 as e: h2 e]: an exception that
    no clause matches propagates. *)
Definition try_except_as {A : Type} (isinst : exc_info -> string -> bool)
    (m : M pyfloat image pipe http_response A)
    (clauses : list (string * (exc_info -> M pyfloat image pipe http_response A)))
    : M pyfloat image pipe http_response A :=
  fun g =>
    match m g with
    | MkRun t (Abrupt (PyException e)) g1 =>
        match find_clause isinst e clauses with
        | Some h =>
            match h g1 with
            | MkRun t' c g2 => MkRun (t ++ t') c g2
            end
        | None => MkRun t (Abrupt (PyException e)) g1
        end
    | r => r
    end.

(** [classifier = None] *)
Definition clear_classifier : M pyfloat image pipe http_response unit :=
  fun g => MkRun [] (Normal tt) (MkGlobals None (environ g)).

(** The statements of the module above [if __name__ == '__main__':]. *)
Definition module_body (im : Imports) : M pyfloat image pipe http_response unit :=
  extern (EvImport "flask") (import_flask im) ;;
  extern (EvImport "flask_cors") (import_flask_cors im) ;;
  extern (EvImport "PIL") (import_pil im) ;;
  try_except_as (isinstance im)
    (extern (EvImport "transformers") (import_transformers im))
    [("ImportError",
      fun e =>
        print ("❌ Error importing transformers: " ++ exc_text e) ;;
        print "   Please install: pip install transformers" ;;
        sys_exit 1)] ;;
  try_except_as (isinstance im)
    (extern (EvImport "torch") (import_torch im))
    [("OSError",
      fun e =>
        print ("❌ Error loading PyTorch: " ++ exc_text e) ;;
        print "   This is usually a DLL issue on Windows." ;;
        print "   Solution: Run fix_pytorch.bat to reinstall PyTorch CPU-only" ;;
        sys_exit 1);
     ("ImportError",
      fun e =>
        print ("❌ Error importing PyTorch: " ++ exc_text e) ;;
        print "   Please install: pip install torch --index-url https://download.pytorch.org/whl/cpu" ;;
        sys_exit 1)] ;;
  clear_classifier.

(** [python image_classifier.py]: the module body, then the [__main__] block. *)
Definition script (im : Imports) (w : World pyfloat image pipe http_response)
    (incoming : list (World pyfloat image pipe http_response * request pyfloat))
    : M pyfloat image pipe http_response unit :=
  module_body im ;;
  main w incoming.

(** All five imports return. *)
Definition imports_ok (im : Imports) : bool :=
  match import_flask im, import_flask_cors im, import_pil im,
        import_transformers im, import_torch im with
  | Returns _, Returns _, Returns _, Returns _, Returns _ => true
  | _, _, _, _, _ => false
  end.

(** The import events of a trace. *)
Definition imported (t : list (event pyfloat image pipe http_response)) : list string :=
  flat_map (fun ev => match ev with EvImport m => [m] | _ => [] end) t.

(** [int(os.getenv('PYTHON_SERVICE_PORT', 5000))] as a value. *)
Definition configured_port (w : World pyfloat image pipe http_response)
    (env : list (string * string)) : pyres Z :=
  match assoc "PYTHON_SERVICE_PORT" env with
  | Some s => int_of_str w s
  | None => Returns 5000
  end.

(** The lines that are printed, in order. *)
Definition printed (t : list (event pyfloat image pipe http_response)) : list string :=
  flat_map (fun ev => match ev with EvPrint l => [l] | _ => [] end) t.

(** An event that is the record of an answer. *)
Definition is_served (ev : event pyfloat image pipe http_response) : bool :=
  match ev with
  | EvServed _ _ => true
  | _ => false
  end.

End Startup.

(** ** A small concrete world, for running the program *)

Module Demo.

(** An image is its mode and its pixels' bytes; a pipeline is the name of its
    model; an HTTP response is its status code and its content. *)
Definition image : Type := (string * bytes)%type.
Definition pipe : Type := string.
Definition http_response : Type := (Z * bytes)%type.

Definition raw (l : string) (s : Q) : raw_result Q := MkRaw l s.

Definition ranked : list (raw_result Q) :=
  [raw "golden retriever" (93#100); raw "Labrador retriever" (3#100);
   raw "cocker spaniel" (1#100); raw "tennis ball" (5#1000);
   raw "kuvasz" (4#1000); raw "clumber" (3#1000); raw "Sussex spaniel" (2#1000);
   raw "Brittany spaniel" (1#1000); raw "otterhound" (1#1000);
   raw "redbone" (1#1000); raw "vizsla" (1#1000); raw "bloodhound" (1#1000)].

Definition png : bytes := [x89; x50; x4e; x47].
Definition jpeg : bytes := [xff; xd8; xff].

Definition world : World Q image pipe http_response :=
  {| pipeline := fun _ model _ =>
       if String.eqb model "missing" then Raises (MkExc "OSError" "missing is not a valid model identifier")
       else Returns model;
     image_open := fun data =>
       match data with
       | x89 :: _ => Returns ("RGBA", data)
       | xff :: _ => Returns ("RGB", data)
       | _ => Raises (MkExc "UnidentifiedImageError" "cannot identify image file")
       end;
     mode := fst;
     convert := fun img to_mode => Returns (to_mode, snd img);
     call_pipe := fun _ img =>
       match snd img with
       | [_; _; _] => Raises (MkExc "RuntimeError" "inference failed")
       | _ => Returns ranked
       end;
     import_requests := Returns tt;
     requests_get := fun url timeout =>
       match url with
       | PStr "http://img/ok.png" => Returns (200, png)
       | PStr "http://img/gone.png" => Returns (404, [])
       | PStr _ => Raises (MkExc "ReadTimeout" "Read timed out. (read timeout=10)")
       | _ => Raises (MkExc "MissingSchema" "Invalid URL")
       end;
     raise_for_status := fun r =>
       if (400 <=? fst r)%Z then Raises (MkExc "HTTPError" "404 Client Error")
       else Returns tt;
     content := snd;
     int_of_str := fun s =>
       if String.eqb s "8080" then Returns 8080%Z
       else Raises (MkExc "ValueError" "invalid literal for int() with base 10") |}.

Definition ready : globals pipe := MkGlobals (Some default_model) [].
Definition unloaded : globals pipe := MkGlobals None [].

(** Requests: a PNG upload, an upload that is no image, a JPEG upload on
    which inference fails, an upload under another field name, and URL
    requests for a picture, for a page that is gone and with odd bodies. *)
Definition upload_png : request Q := PostClassify [("image", png)].
Definition upload_junk : request Q := PostClassify [("image", [x00])].
Definition upload_jpeg : request Q := PostClassify [("image", jpeg)].
Definition upload_misnamed : request Q := PostClassify [("file", png)].
Definition url_ok : request Q :=
  PostClassifyUrl (Returns (PDict [("url", PStr "http://img/ok.png")])).
Definition url_gone : request Q :=
  PostClassifyUrl (Returns (PDict [("url", PStr "http://img/gone.png")])).
Definition url_misnamed : request Q :=
  PostClassifyUrl (Returns (PDict [("link", PStr "http://img/ok.png")])).
Definition body_null : request Q := PostClassifyUrl (Returns PNone).
Definition body_string : request Q := PostClassifyUrl (Returns (PStr "hello")).

(** The envelope for [ranked] under the default model. *)
Definition answer : response Q := MkResponse (spec_envelope default_model ranked) 200.

(** Scores compared as rationals. *)
Definition score_order (a b : Q) : Prop := Qle b a.

(** Imports: all present; [transformers] not installed; [torch] failing to
    load its libraries. *)
Definition instance_of (e : exc_info) (cls : string) : bool :=
  String.eqb (exc_class e) cls
  || (String.eqb (exc_class e) "ModuleNotFoundError" && String.eqb cls "ImportError").

Definition installed : Imports :=
  MkImports (Returns tt) (Returns tt) (Returns tt) (Returns tt) (Returns tt) instance_of.

Definition no_transformers : Imports :=
  MkImports (Returns tt) (Returns tt) (Returns tt)
    (Raises (MkExc "ModuleNotFoundError" "No module named 'transformers'"))
    (Returns tt) instance_of.

Definition broken_torch : Imports :=
  MkImports (Returns tt) (Returns tt) (Returns tt) (Returns tt)
    (Raises (MkExc "OSError" "[WinError 126] The specified module could not be found"))
    instance_of.

(** Environments: a port given, a port that is no number. *)
Definition env_port : list (string * string) := [("PYTHON_SERVICE_PORT", "8080")].
Definition env_bad_port : list (string * string) := [("PYTHON_SERVICE_PORT", "http")].

(** More bodies: an array and a string in which 'url' is found. *)
Definition body_array_url : request Q := PostClassifyUrl (Returns (PList [PStr "url"])).
Definition body_string_url : request Q := PostClassifyUrl (Returns (PStr "my url")).

(** A world whose classifier recognises nothing. *)
Definition blank_world : World Q image pipe http_response :=
  {| pipeline := pipeline world;
     image_open := image_open world;
     mode := mode world;
     convert := convert world;
     call_pipe := fun _ _ => Returns [];
     import_requests := import_requests world;
     requests_get := requests_get world;
     raise_for_status := raise_for_status world;
     content := content world;
     int_of_str := int_of_str world |}.

(** The answer to an upload without an [image] field. *)
Definition no_file_answer : response Q :=
  MkResponse (error_body "No image file provided") 400.

(** A morning of requests. *)
Definition morning : list (World Q image pipe http_response * request Q) :=
  [(world, GetHealth); (world, upload_junk); (world, upload_png); (world, url_gone)].

End Demo.

(** * Properties of the service *)

Section Properties.

Context {pyfloat image pipe http_response : Type}.
Implicit Types (w : World pyfloat image pipe http_response) (g : globals pipe).
Implicit Types (req : request pyfloat) (resp : response pyfloat).
Implicit Types (rs raw : list (raw_result pyfloat)) (acc : list (pyval pyfloat)).
Implicit Types (e : exc_info).

(** ** The formatting loop *)

Lemma labels_loop rs acc :
  fold_left
    (fun labels result =>
       (labels ++ [PDict [("description", PStr (label result));
                          ("confidence", PFloat (score result))]])%list)
    rs acc
  = (acc ++ map label_entry rs)%list.
Proof.
  revert acc; induction rs as [|r rs IH]; intros acc; simpl.
  - now rewrite app_nil_r.
  - rewrite IH, <- app_assoc. reflexivity.
Qed.

Lemma names_of_entries rs :
  list_comp (fun l : pyval pyfloat => py_getitem l "description") (map label_entry rs)
  = Returns (map (fun r => PStr (label r)) rs).
Proof.
  induction rs as [|r rs IH]; simpl; [reflexivity|].
  now rewrite IH.
Qed.

Lemma names_of_top (n : nat) rs :
  list_comp (fun l : pyval pyfloat => py_getitem l "description")
            (firstn n (map label_entry rs))
  = Returns (map (fun r => PStr (label r)) (firstn n rs)).
Proof. rewrite firstn_map. apply names_of_entries. Qed.

Lemma join_of_names (sep : string) rs (i : nat) :
  str_join_from i sep (map (fun r => PStr (label r) : pyval pyfloat) rs)
  = Returns (String.concat sep (map label rs)).
Proof.
  revert i; induction rs as [|r rs IH]; intros i; simpl; [reflexivity|].
  destruct rs as [|r' rs]; [reflexivity|].
  rewrite IH. reflexivity.
Qed.

Lemma join_names (sep : string) rs :
  str_join sep (map (fun r => PStr (label r) : pyval pyfloat) rs)
  = Returns (String.concat sep (map label rs)).
Proof. apply join_of_names. Qed.

Lemma confidence_of_entries rs :
  match map label_entry rs with
  | l0 :: _ => py_getitem l0 "confidence"
  | [] => Returns (PInt 0)
  end
  = Returns (top_confidence rs).
Proof. destruct rs; reflexivity. Qed.

Lemma active_model_eq g :
  match assoc "HF_MODEL" (environ g) with
  | Some v => v
  | None => default_model
  end = active_model g.
Proof. reflexivity. Qed.

Lemma firstn_min_length {A : Type} (n : nat) (l : list A) :
  firstn (Nat.min n (length l)) l = firstn n l.
Proof.
  destruct (Nat.le_ge_cases n (length l)) as [H|H].
  - now rewrite Nat.min_l.
  - rewrite Nat.min_r by assumption.
    now rewrite firstn_all, firstn_all2.
Qed.

Lemma top_confidence_firstn (n : nat) raw :
  top_confidence (firstn (S n) raw) = top_confidence raw.
Proof. destruct raw; reflexivity. Qed.

(** What the inline formatting code computes is the envelope of the
    specification. *)
Lemma inline_envelope (model : string) raw :
  PDict [("labels", PList (map label_entry (firstn 10 raw)));
         ("colors", PList []);
         ("objects", PList (firstn 5 (map label_entry (firstn 10 raw))));
         ("confidence", top_confidence (firstn 10 raw));
         ("source", PStr "local_transformers");
         ("model", PStr model)]
  = spec_envelope model raw.
Proof.
  unfold spec_envelope, spec_labels.
  now rewrite firstn_min_length, top_confidence_firstn.
Qed.

Lemma spec_envelope_invariant (model : string) raw :
  envelope_invariant (spec_envelope model raw).
Proof.
  exists (spec_labels raw), (firstn 5 (spec_labels raw)).
  split; [reflexivity|]. split; [reflexivity|].
  split.
  { unfold spec_labels. rewrite firstn_min_length, length_map.
    apply firstn_le_length. }
  split; [apply firstn_le_length|].
  split; [reflexivity|].
  split.
  { exists (skipn 5 (spec_labels raw)). symmetry. apply firstn_skipn. }
  exists (top_confidence raw). split; [reflexivity|].
  unfold spec_labels. rewrite firstn_min_length.
  destruct raw; reflexivity.
Qed.

(** ** Running a handler: one case per path through it *)

Ltac mstep_in H :=
  cbv beta iota zeta delta
    [bind try_except ret raise emit lift extern print read_classifier write_classifier
     getenv getenv_or call_classifier sys_exit negb files_contains files_getitem] in H;
  cbn [app trace result final classifier environ] in H.

Ltac stuck_in T :=
  match T with
  | context [match ?x with _ => _ end] =>
      lazymatch x with
      | context [match _ with _ => _ end] => fail
      | _ => x
      end
  end.

Ltac format_in H :=
  repeat (progress (rewrite ?labels_loop, ?names_of_top, ?join_names,
                      ?confidence_of_entries, ?active_model_eq in H;
                    cbn [app] in H)).

Ltac run_cases H :=
  repeat first
    [ progress (mstep_in H; format_in H)
    | match type of H with
      | ?T =>
          let x := stuck_in T in
          first [ match goal with E : x = _ |- _ => rewrite E in H end
                | destruct x eqn:? ]
      end ];
  rewrite ?inline_envelope in H.

(** [handler_cases] names the run of a request and splits it by path;
    [dispatch_cases] does so for each of the two classify requests. *)
Ltac handler_cases w req g :=
  let t := fresh "t" in
  let c := fresh "c" in
  let g' := fresh "g'" in
  let Hrun := fresh "Hrun" in
  destruct (dispatch w req g) as [t c g'] eqn:Hrun;
  unfold dispatch, classify_image, classify_image_url in Hrun;
  run_cases Hrun;
  injection Hrun as <- <- <-.

Ltac dispatch_cases w req g :=
  destruct req; try discriminate;
  match goal with
  | |- context [dispatch w ?r g] => handler_cases w r g
  | H : context [dispatch w ?r g] |- _ => handler_cases w r g
  end.

(** C2: while the model handle is unset, both classify endpoints answer
    500 with [{error: <non-empty string>, labels: []}] whatever the request
    holds; nothing else happens (no library call, no state change), so the
    check comes before any look at the input. *)
Theorem C2_model_unset_500 w req g :
  is_classify req = true ->
  classifier g = None ->
  exists msg,
    msg <> "" /\
    dispatch w req g = MkRun [] (Normal (MkResponse (error_body msg) 500)) g.
Proof.
  intros Hreq Hnone.
  exists "Model not loaded". split; [discriminate|].
  destruct req as [|files|get_json]; [discriminate| |];
    unfold dispatch, classify_image, classify_image_url;
    cbv beta iota delta [try_except bind read_classifier ret];
    rewrite Hnone; reflexivity.
Qed.

(** C3: with the model loaded, an upload without an [image] field and a
    JSON object without the key [url] are answered 400 with
    [{error: <string>, labels: []}]; the trace of the run is empty, so no
    inference (nor any other library call) is attempted. *)
Theorem C3_missing_input_400 w g clf :
  classifier g = Some clf ->
  (forall files,
      assoc "image" files = None ->
      exists msg,
        dispatch w (PostClassify files) g
        = MkRun [] (Normal (MkResponse (error_body msg) 400)) g) /\
  (forall d,
      assoc "url" d = None ->
      exists msg,
        dispatch w (PostClassifyUrl (Returns (PDict d))) g
        = MkRun [] (Normal (MkResponse (error_body msg) 400)) g).
Proof.
  intros Hclf; split.
  - intros files Hfiles. exists "No image file provided".
    unfold dispatch, classify_image.
    cbv beta iota delta [try_except bind read_classifier ret files_contains negb].
    rewrite Hclf, Hfiles. reflexivity.
  - intros d Hd. exists "No image URL provided".
    unfold dispatch, classify_image_url.
    cbv beta iota delta [try_except bind read_classifier ret lift py_contains negb].
    rewrite Hclf, Hd. reflexivity.
Qed.

(** C1: every 200 response of the two classify endpoints satisfies the
    envelope invariant: at most 10 labels, [objects] the prefix
    [labels[0:5]], and [confidence] the confidence of the first label, or 0
    when there is no label. *)
Theorem C1_envelope_invariant w req g resp :
  is_classify req = true ->
  result (dispatch w req g) = Normal resp ->
  status resp = 200 ->
  envelope_invariant (body resp).
Proof.
  intros Hreq Hres Hstatus.
  dispatch_cases w req g;
    cbn [result] in Hres; injection Hres as <-;
    cbn [status] in Hstatus; try discriminate;
    cbn [body].
  all: apply spec_envelope_invariant.
Qed.

Ltac in_trace H :=
  cbn [In] in H;
  repeat (destruct H as [H|H]; [try discriminate H|]);
  try contradiction.

(** C4: when opening the image, converting it or running the classifier
    raises, the classify endpoint that made the call answers 500 with
    [{error: str(e), labels: []}]: the text of the exception itself. *)
Theorem C4_exception_text_in_500 w req g e :
  is_classify req = true ->
  (exists data,
      In (EvImageOpen data) (trace (dispatch w req g)) /\
      image_open w data = Raises e) \/
  (exists img to_mode,
      In (EvConvert img to_mode) (trace (dispatch w req g)) /\
      convert w img to_mode = Raises e) \/
  (exists clf img,
      In (EvClassify clf img) (trace (dispatch w req g)) /\
      call_pipe w clf img = Raises e) ->
  result (dispatch w req g) = Normal (MkResponse (error_body (exc_text e)) 500).
Proof.
  intros Hreq Hraise.
  dispatch_cases w req g; cbn [trace result] in *; unfold error_body.
  all: destruct Hraise as [(data & Hin & Hr) | [(img & m & Hin & Hr) | (clf & img & Hin & Hr)]].
  all: in_trace Hin.
  all: injection Hin as; subst; congruence.
Qed.

(** Two outcomes recorded for the same library call are the same outcome. *)
Ltac same_call :=
  repeat match goal with
    | H1 : ?x = Returns _, H2 : ?x = Returns _ |- _ =>
        rewrite H1 in H2; injection H2 as H2; subst
    | H1 : ?x = Returns _, H2 : ?x = Raises _ |- _ =>
        rewrite H1 in H2; discriminate H2
    | H1 : ?x = Raises _, H2 : ?x = Returns _ |- _ =>
        rewrite H1 in H2; discriminate H2
    end.

(** C5: the image a classify endpoint hands to the classifier is the decoded
    image itself when its mode is 'RGB' and its conversion to 'RGB'
    otherwise, so (a conversion to 'RGB' yielding an image of that mode) it
    is always an RGB image; and every image that is decoded and normalised
    without an exception is handed to the classifier, once. *)
Theorem C5_classifier_gets_rgb w req g :
  is_classify req = true ->
  (forall img img', convert w img "RGB" = Returns img' -> mode w img' = "RGB") ->
  (forall clf img,
      In (EvClassify clf img) (trace (dispatch w req g)) ->
      mode w img = "RGB" /\
      exists data decoded,
        In (EvImageOpen data) (trace (dispatch w req g)) /\
        image_open w data = Returns decoded /\
        (mode w decoded = "RGB" -> img = decoded) /\
        (mode w decoded <> "RGB" ->
           convert w decoded "RGB" = Returns img /\
           In (EvConvert decoded "RGB") (trace (dispatch w req g)))) /\
  (forall data decoded img,
      In (EvImageOpen data) (trace (dispatch w req g)) ->
      image_open w data = Returns decoded ->
      normalized w decoded = Returns img ->
      exists clf,
        classifier g = Some clf /\
        classify_calls (trace (dispatch w req g)) = [(clf, img)]).
Proof.
  intros Hreq Hpil. split.
  - intros clf img Hin.
    dispatch_cases w req g; cbn [trace] in *.
    all: in_trace Hin.
    all: injection Hin as -> ->.
    all: repeat match goal with
           | H : String.eqb _ _ = true |- _ => apply String.eqb_eq in H
           | H : String.eqb _ _ = false |- _ => apply String.eqb_neq in H
           end.
    all: split; [solve [eauto]|].
    all: do 2 eexists; split; [cbn [In]; eauto 10|].
    all: split; [eassumption|].
    all: split; [intros ?; congruence || reflexivity|].
    all: intros ?; first [congruence | split; [assumption|cbn [In]; eauto 10]].
  - intros data decoded img Hin Hopen Hnorm. unfold normalized in Hnorm.
    dispatch_cases w req g; cbn [trace] in *.
    all: in_trace Hin.
    all: injection Hin as Hdata; subst data.
    all: same_call.
    all: repeat match goal with
           | H : String.eqb _ _ = _ |- _ => rewrite H in Hnorm
           end.
    all: same_call.
    all: try discriminate.
    all: eexists; split; [reflexivity|].
    all: cbn [classify_calls flat_map app]; congruence.
Qed.

(** ** Order of the labels *)

Lemma Sorted_firstn {A : Type} (R : A -> A -> Prop) (n : nat) (l : list A) :
  Sorted R l -> Sorted R (firstn n l).
Proof.
  intros Hs; revert n.
  induction Hs as [|a l Hs IH Hhd]; intros [|n]; cbn [firstn]; try constructor.
  - apply IH.
  - destruct Hhd as [|b l' Hab]; destruct n; cbn [firstn]; constructor; assumption.
Qed.

Lemma Sorted_entries (ge : pyfloat -> pyfloat -> Prop) rs :
  Sorted (score_ge ge) rs -> Sorted (confidence_ge ge) (map label_entry rs).
Proof.
  induction 1 as [|a l Hs IH Hhd]; cbn [map]; constructor; [assumption|].
  destruct Hhd as [|b l' Hab]; cbn [map]; constructor.
  exists (score a), (score b). repeat split; assumption.
Qed.

(** Once the classifier has returned [raw], the answer is the envelope of
    [raw], with status 200. *)
Lemma dispatch_formats w req g clf img raw :
  is_classify req = true ->
  In (EvClassify clf img) (trace (dispatch w req g)) ->
  call_pipe w clf img = Returns raw ->
  dispatch w req g
  = MkRun (trace (dispatch w req g))
          (Normal (MkResponse (spec_envelope (active_model g) raw) 200)) g.
Proof.
  intros Hreq Hin Hraw.
  dispatch_cases w req g; cbn [trace] in *.
  all: in_trace Hin.
  all: injection Hin as; subst; same_call; reflexivity.
Qed.

(** C6: in both classify endpoints the answer is one and the same function
    of the raw result list (and of the configured model name): the envelope
    whose [labels] are the first min(10, length) raw entries mapped in order
    to [{description, confidence}]; if the raw list is ordered by descending
    score, [labels] is ordered by non-increasing confidence; and two calls
    that get the same raw list give the same envelope. *)
Theorem C6_formatting_function (ge : pyfloat -> pyfloat -> Prop) w req g clf img raw :
  is_classify req = true ->
  In (EvClassify clf img) (trace (dispatch w req g)) ->
  call_pipe w clf img = Returns raw ->
  result (dispatch w req g)
  = Normal (MkResponse (spec_envelope (active_model g) raw) 200) /\
  py_getitem (spec_envelope (active_model g) raw) "labels"
  = Returns (PList (map label_entry (firstn (Nat.min 10 (length raw)) raw))) /\
  (Sorted (score_ge ge) raw ->
   exists labels,
     py_getitem (spec_envelope (active_model g) raw) "labels" = Returns (PList labels) /\
     Sorted (confidence_ge ge) labels) /\
  (forall w' req' clf' img',
      is_classify req' = true ->
      In (EvClassify clf' img') (trace (dispatch w' req' g)) ->
      call_pipe w' clf' img' = Returns raw ->
      result (dispatch w' req' g) = result (dispatch w req g)).
Proof.
  intros Hreq Hin Hraw.
  pose proof (dispatch_formats w req g clf img raw Hreq Hin Hraw) as Hrun.
  repeat split.
  - rewrite Hrun. reflexivity.
  - intros Hsorted. eexists; split; [reflexivity|].
    apply Sorted_entries, Sorted_firstn, Hsorted.
  - intros w' req' clf' img' Hreq' Hin' Hraw'.
    rewrite Hrun, (dispatch_formats w' req' g clf' img' raw Hreq' Hin' Hraw').
    reflexivity.
Qed.


(** ** Start-up *)

Lemma load_model_returns w (model : string) g c :
  pipeline w "image-classification" model (-1) = Returns c ->
  result (load_model w model g) = Normal true /\
  final (load_model w model g) = MkGlobals (Some c) (environ g) /\
  pipeline_calls (trace (load_model w model g)) = [("image-classification", model, -1)].
Proof.
  intros Hc. unfold load_model.
  cbv beta iota zeta delta [bind try_except ret emit lift extern print write_classifier].
  rewrite Hc. repeat split.
Qed.

Lemma load_model_raises w (model : string) g e :
  pipeline w "image-classification" model (-1) = Raises e ->
  result (load_model w model g) = Normal false /\
  final (load_model w model g) = g /\
  pipeline_calls (trace (load_model w model g)) = [("image-classification", model, -1)].
Proof.
  intros Hc. unfold load_model.
  cbv beta iota zeta delta
    [bind try_except ret raise emit lift extern print write_classifier].
  rewrite Hc. repeat split.
Qed.

(** C8: when loading the model fails, [load_model] returns False and leaves
    the handle as it was, and the script ends through [sys.exit(1)]: exit
    status 1, after exactly one call of [pipeline] (no retry, no other
    model), without starting the server or answering any request.
    [load_model] returns True exactly when [pipeline] returned, and the
    handle is then set to what it returned. *)
Theorem C8_load_failure_is_fatal w incoming env e :
  pipeline w "image-classification" (configured_model env) (-1) = Raises e ->
  let r := main w incoming (module_init env) in
  result r = Abrupt (SystemExit 1) /\
  exit_status (result r) = 1 /\
  exit_status (result r) <> 0 /\
  served (trace r) = [] /\
  (forall host port debug, ~ In (EvAppRun host port debug) (trace r)) /\
  pipeline_calls (trace r)
  = [("image-classification", configured_model env, -1)] /\
  classifier (final r) = None /\
  (forall (model : string) g,
      (exists c,
          pipeline w "image-classification" model (-1) = Returns c /\
          result (load_model w model g) = Normal true /\
          classifier (final (load_model w model g)) = Some c) \/
      (exists e',
          pipeline w "image-classification" model (-1) = Raises e' /\
          result (load_model w model g) = Normal false /\
          final (load_model w model g) = g)).
Proof.
  intros Hfail r.
  assert (Hload : forall (model : string) g,
             (exists c,
                 pipeline w "image-classification" model (-1) = Returns c /\
                 result (load_model w model g) = Normal true /\
                 classifier (final (load_model w model g)) = Some c) \/
             (exists e',
                 pipeline w "image-classification" model (-1) = Raises e' /\
                 result (load_model w model g) = Normal false /\
                 final (load_model w model g) = g)).
  { intros model g.
    destruct (pipeline w "image-classification" model (-1)) as [c|e'] eqn:Hp.
    - left. exists c. destruct (load_model_returns w model g c Hp) as (-> & -> & _).
      repeat split.
    - right. exists e'. destruct (load_model_raises w model g e' Hp) as (-> & -> & _).
      repeat split. }
  destruct (load_model_raises w _ (module_init env) e Hfail) as (Hres & Hfin & Hcalls).
  subst r. unfold main.
  cbv beta iota zeta delta [bind getenv_or getenv ret].
  change (match assoc "HF_MODEL" (environ (module_init env)) with
          | Some v => v
          | None => default_model
          end) with (configured_model env).
  destruct (load_model w (configured_model env) (module_init env))
    as [t c g'] eqn:Hrun.
  cbn [result final trace] in Hres, Hfin, Hcalls. subst c g'.
  cbv beta iota zeta delta [negb bind print emit sys_exit raise].
  cbn [trace result final exit_status app].
  repeat split; try assumption; try discriminate.
  - unfold served. rewrite flat_map_app.
    replace (flat_map _ t) with (@nil (request pyfloat * response pyfloat)).
    + reflexivity.
    + symmetry. revert Hrun. unfold load_model.
      cbv beta iota zeta delta
        [bind try_except ret raise emit lift extern print write_classifier].
      rewrite Hfail. intros [= <-]. reflexivity.
  - intros host port debug Hin. apply in_app_or in Hin.
    destruct Hin as [Hin|Hin]; [|in_trace Hin].
    revert Hrun Hin. unfold load_model.
    cbv beta iota zeta delta
      [bind try_except ret raise emit lift extern print write_classifier].
    rewrite Hfail. intros [= <-] Hin. in_trace Hin.
  - unfold pipeline_calls in *. rewrite flat_map_app, Hcalls. reflexivity.
Qed.

(** ** The model handle while requests are served *)

(** A view changes neither the handle nor the environment, and emits no
    [EvServed] of its own. *)
Lemma dispatch_run w req g :
  exists t resp,
    dispatch w req g = MkRun t (Normal resp) g /\
    served t = [] /\
    (req = GetHealth ->
     resp = MkResponse (health_body (match classifier g with
                                     | Some _ => true
                                     | None => false
                                     end)) 200).
Proof.
  destruct req as [|files|get_json].
  - do 2 eexists. split; [reflexivity|]. split; [reflexivity|]. reflexivity.
  - handler_cases w (@PostClassify pyfloat files) g.
    all: do 2 eexists; split; [reflexivity|]; split; [reflexivity|discriminate].
  - handler_cases w (PostClassifyUrl get_json) g.
    all: do 2 eexists; split; [reflexivity|]; split; [reflexivity|discriminate].
Qed.

Lemma flask_handle_run w req g :
  flask_handle w req g = dispatch w req g.
Proof.
  unfold flask_handle, try_except.
  destruct (dispatch_run w req g) as (t & resp & -> & _). reflexivity.
Qed.

Lemma serve_run (incoming : list (World pyfloat image pipe http_response * request pyfloat)) g :
  final (serve incoming g) = g /\
  result (serve incoming g) = Normal tt /\
  forall resp,
    In (GetHealth, resp) (served (trace (serve incoming g))) ->
    resp = MkResponse (health_body (match classifier g with
                                    | Some _ => true
                                    | None => false
                                    end)) 200.
Proof.
  induction incoming as [|[w req] rest IH]; cbn [serve].
  - split; [reflexivity|split; [reflexivity|]]. intros resp [].
  - unfold bind, emit. rewrite flask_handle_run.
    destruct (dispatch_run w req g) as (t & resp & -> & Hserved & Hhealth).
    destruct (serve rest g) as [t' c' g'] eqn:Hrest.
    cbn [final result trace] in *.
    destruct IH as (-> & -> & IH).
    split; [reflexivity|split; [reflexivity|]].
    intros resp' Hin. unfold served in *.
    rewrite flat_map_app, Hserved in Hin. cbn [app flat_map In] in Hin.
    destruct Hin as [Hin|Hin]; [|auto].
    injection Hin as Hreq Hresp. subst resp'. auto.
Qed.

(** C9: no view writes the model handle, so it is the same before and
    after any request and after any sequence of requests; once the start-up
    load has succeeded the handle stays the loaded pipeline to the end of
    the run, and every answer of [GET /health] reports [model_loaded: true]. *)
Theorem C9_ready_is_permanent w
    (incoming : list (World pyfloat image pipe http_response * request pyfloat)) :
  (forall req g, final (dispatch w req g) = g) /\
  (forall g, final (serve incoming g) = g) /\
  (forall g clf resp,
      classifier g = Some clf ->
      In (GetHealth, resp) (served (trace (serve incoming g))) ->
      py_getitem (body resp) "model_loaded" = Returns (PBool true)) /\
  (forall env c,
      pipeline w "image-classification" (configured_model env) (-1) = Returns c ->
      classifier (final (main w incoming (module_init env))) = Some c /\
      forall resp,
        In (GetHealth, resp) (served (trace (main w incoming (module_init env)))) ->
        py_getitem (body resp) "model_loaded" = Returns (PBool true)).
Proof.
  split; [|split; [|split]].
  - intros req g. destruct (dispatch_run w req g) as (t & resp & -> & _). reflexivity.
  - intros g. apply serve_run.
  - intros g clf resp Hclf Hin.
    destruct (serve_run incoming g) as (_ & _ & Hh).
    rewrite (Hh resp Hin), Hclf. reflexivity.
  - intros env c Hload.
    destruct (load_model_returns w _ (module_init env) c Hload) as (Hres & Hfin & _).
    unfold main.
    cbv beta iota zeta delta [bind getenv_or getenv ret].
    change (match assoc "HF_MODEL" (environ (module_init env)) with
            | Some v => v
            | None => default_model
            end) with (configured_model env).
    destruct (load_model w (configured_model env) (module_init env))
      as [t c0 g'] eqn:Hrun.
    cbn [result final trace] in Hres, Hfin. subst c0 g'.
    assert (Ht : served t = []).
    { revert Hrun. unfold load_model.
      cbv beta iota zeta delta
        [bind try_except ret raise emit lift extern print write_classifier].
      rewrite Hload. intros [= <-]. reflexivity. }
    cbv beta iota zeta delta [negb bind print emit lift ret raise app_run].
    cbn [environ module_init classifier].
    destruct (match assoc "PYTHON_SERVICE_PORT" env with
              | Some s => int_of_str w s
              | None => Returns 5000
              end) as [port|e].
    + destruct (serve incoming {| classifier := Some c; environ := env |})
        as [t' c' g'] eqn:Hserve.
      destruct (serve_run incoming {| classifier := Some c; environ := env |})
        as (Hf & _ & Hh).
      rewrite Hserve in Hf, Hh. cbn [final trace classifier] in *. subst g'.
      split; [reflexivity|].
      intros resp Hin. unfold served in *.
      repeat (rewrite flat_map_app in Hin). rewrite Ht in Hin.
      cbn [app flat_map] in Hin.
      rewrite (Hh resp Hin). reflexivity.
    + cbn [final trace classifier]. split; [reflexivity|].
      intros resp Hin. unfold served in *.
      repeat (rewrite flat_map_app in Hin). rewrite Ht in Hin.
      cbn [app flat_map In] in Hin. contradiction.
Qed.

(** C10 (amended): with the model loaded, a [POST /classify_url] whose body
    does not parse ([get_json] raises: missing body, invalid JSON, wrong
    content type) or parses to null, a number or a boolean is answered 500
    with the text of the exception that parsing or the ['url' in data] test
    raised; a body that is a JSON string or array passes that test without
    an exception and is answered 400 when 'url' is not found in it. *)
Theorem C10_bad_body_500 w g clf get_json :
  classifier g = Some clf ->
  ((exists e, get_json = Raises e) \/
   (exists v, get_json = Returns v /\ not_a_container v = true) ->
   exists msg,
     dispatch w (PostClassifyUrl get_json) g
     = MkRun [EvPrint ("❌ Classification error: " ++ msg)]
             (Normal (MkResponse (error_body msg) 500)) g) /\
  (forall v,
      get_json = Returns v ->
      (exists s, v = PStr s) \/ (exists l, v = PList l) ->
      py_contains "url" v = Returns false ->
      dispatch w (PostClassifyUrl get_json) g
      = MkRun [] (Normal (MkResponse (error_body "No image URL provided") 400)) g).
Proof.
  intros Hclf. split.
  - intros [(e & ->) | (v & -> & Hv)].
    + exists (exc_text e).
      unfold dispatch, classify_image_url.
      cbv beta iota zeta delta [try_except bind read_classifier ret raise lift print emit].
      rewrite Hclf. reflexivity.
    + destruct v; try discriminate Hv.
      all: eexists; unfold dispatch, classify_image_url;
        cbv beta iota zeta delta
          [try_except bind read_classifier ret raise lift print emit py_contains];
        rewrite Hclf; reflexivity.
  - intros v -> Hshape Hno.
    unfold dispatch, classify_image_url.
    cbv beta iota zeta delta [try_except bind read_classifier ret raise lift negb].
    rewrite Hclf, Hno. reflexivity.
Qed.

(** * Further properties of the views *)

(** The three shapes of a classify answer. *)
Lemma view_shapes w req g :
  is_classify req = true ->
  exists resp,
    result (dispatch w req g) = Normal resp /\
    ((exists raw, resp = MkResponse (spec_envelope (active_model g) raw) 200) \/
     (exists msg, resp = MkResponse (error_body msg) 400) \/
     (exists msg, resp = MkResponse (error_body msg) 500)).
Proof.
  intros Hreq.
  dispatch_cases w req g; cbn [result].
  all: eexists; split; [reflexivity|].
  all: first [ left; eexists; reflexivity
             | right; left; eexists; reflexivity
             | right; right; eexists; reflexivity ].
Qed.

(** X1: every response that a classify view returns has one of three
    shapes: the 200 envelope of some raw result list, or a 400 error body
    (and then nothing at all was called or printed before it), or a 500
    error body. *)
Theorem X1_classify_response_shapes w req g resp :
  is_classify req = true ->
  result (dispatch w req g) = Normal resp ->
  (exists raw, resp = MkResponse (spec_envelope (active_model g) raw) 200) \/
  (exists msg,
      resp = MkResponse (error_body msg) 400 /\ trace (dispatch w req g) = []) \/
  (exists msg, resp = MkResponse (error_body msg) 500).
Proof.
  intros Hreq Hres.
  dispatch_cases w req g; cbn [result trace] in *.
  all: injection Hres as <-.
  all: first [ left; eexists; reflexivity
             | right; left; eexists; split; reflexivity
             | right; right; eexists; reflexivity ].
Qed.

(** X2: a 500 answer of a classify view is either the "Model not loaded"
    answer of an unset handle, given without printing anything, or it comes
    from the [except] branch, and then the last thing printed (and the last
    event of the run) is the "Classification error" line with the very text
    that the answer carries. *)
Theorem X2_error_500_is_logged w req g msg :
  is_classify req = true ->
  result (dispatch w req g) = Normal (MkResponse (error_body msg) 500) ->
  (classifier g = None /\ msg = "Model not loaded" /\ trace (dispatch w req g) = []) \/
  (exists clf t,
      classifier g = Some clf /\
      trace (dispatch w req g) = (t ++ [EvPrint ("❌ Classification error: " ++ msg)])%list).
Proof.
  intros Hreq Hres.
  unfold error_body in Hres.
  dispatch_cases w req g; cbn [result trace] in *.
  all: try discriminate Hres.
  all: injection Hres as <-.
  all: first
         [ left; repeat split; reflexivity
         | right; eexists;
           lazymatch goal with
           | |- exists t, _ /\ ?l = _ => exists (removelast l)
           end; split; reflexivity ].
Qed.

(** X3: the body of a classify answer has the key [error] exactly when the
    status is not 200.  A 200 body has no [error]; its [colors] is the empty
    list, its [source] is "local_transformers" and its [model] is the value
    of HF_MODEL (or the default name).  Any other body has an [error] string
    and [labels] the empty list. *)
Theorem X3_error_key_iff_not_200 w req g resp :
  is_classify req = true ->
  result (dispatch w req g) = Normal resp ->
  (status resp = 200 ->
   py_getitem (body resp) "error" = Raises (KeyError "error") /\
   py_getitem (body resp) "colors" = Returns (PList []) /\
   py_getitem (body resp) "source" = Returns (PStr "local_transformers") /\
   py_getitem (body resp) "model" = Returns (PStr (active_model g))) /\
  (status resp <> 200 ->
   (status resp = 400 \/ status resp = 500) /\
   exists msg,
     py_getitem (body resp) "error" = Returns (PStr msg) /\
     py_getitem (body resp) "labels" = Returns (PList [])).
Proof.
  intros Hreq Hres.
  destruct (view_shapes w req g Hreq)
    as (resp' & Hres' & [(raw & ->) | [(msg & ->) | (msg & ->)]]).
  all: rewrite Hres' in Hres; injection Hres as <-; cbn [status body].
  all: split; intros Hst; try discriminate Hst; try (exfalso; apply Hst; reflexivity).
  - repeat split.
  - split; [left; reflexivity|]. exists msg. split; reflexivity.
  - split; [right; reflexivity|]. exists msg. split; reflexivity.
Qed.

(** The decoded image and the one handed on, case by case. *)
Ltac split_normalized Hnorm :=
  unfold normalized in Hnorm;
  let Hmode := fresh "Hmode" in
  lazymatch type of Hnorm with
  | (if ?b then _ else _) = _ =>
      destruct b eqn:Hmode; [injection Hnorm as Hnorm; subst|]
  end.

(** X4: an upload goes all the way when nothing raises: with the model
    loaded, a file under [image] that opens, normalises and classifies
    gives the 200 envelope of the classifier's result, after one classifier
    call and no fetch, and prints three lines: the announcement, the number
    of labels kept (min(10, length)) and the first three names joined by
    a comma and a blank. *)
Theorem X4_upload_success w files g clf data decoded img raw :
  classifier g = Some clf ->
  assoc "image" files = Some data ->
  image_open w data = Returns decoded ->
  normalized w decoded = Returns img ->
  call_pipe w clf img = Returns raw ->
  let r := dispatch w (@PostClassify pyfloat files) g in
  result r = Normal (MkResponse (spec_envelope (active_model g) raw) 200) /\
  classify_calls (trace r) = [(clf, img)] /\
  fetch_calls (trace r) = [] /\
  printed (trace r)
  = ["🔍 Classifying image...";
     "✅ Classification complete: " ++ str_of_nat (Nat.min 10 (length raw))
       ++ " labels found";
     "   Top 3: " ++ String.concat ", " (map label (firstn 3 raw))].
Proof.
  intros Hclf Hfile Hopen Hnorm Hraw r; subst r.
  assert (Hcount : length (map label_entry (firstn 10 raw)) = Nat.min 10 (length raw)).
  { now rewrite length_map, length_firstn. }
  assert (Htop : firstn 3 (firstn 10 raw) = firstn 3 raw).
  { now rewrite firstn_firstn. }
  split_normalized Hnorm.
  all: handler_cases w (@PostClassify pyfloat files) g.
  all: cbn [result trace classify_calls fetch_calls printed flat_map app].
  all: rewrite <- Hcount, <- Htop.
  all: repeat split.
Qed.

(** X5: a URL request goes all the way when nothing raises: with the model
    loaded and a body holding [url], the value under [url] is fetched once
    with timeout 10, the content is opened, normalised and classified once,
    and the answer is the 200 envelope.  Only the announcement is printed,
    and the classifier call is the last event of the run. *)
Theorem X5_url_success w g clf data url fetched decoded img raw :
  classifier g = Some clf ->
  py_contains "url" data = Returns true ->
  import_requests w = Returns tt ->
  py_getitem data "url" = Returns url ->
  requests_get w url 10 = Returns fetched ->
  raise_for_status w fetched = Returns tt ->
  image_open w (content w fetched) = Returns decoded ->
  normalized w decoded = Returns img ->
  call_pipe w clf img = Returns raw ->
  let r := dispatch w (PostClassifyUrl (Returns data)) g in
  result r = Normal (MkResponse (spec_envelope (active_model g) raw) 200) /\
  fetch_calls (trace r) = [(url, 10)] /\
  classify_calls (trace r) = [(clf, img)] /\
  printed (trace r) = ["🔍 Classifying image from URL..."] /\
  exists t, trace r = (t ++ [EvClassify clf img])%list.
Proof.
  intros Hclf Hhas Himp Hurl Hget Hstatus Hopen Hnorm Hraw r; subst r.
  split_normalized Hnorm.
  all: handler_cases w (PostClassifyUrl (Returns data)) g.
  all: cbn [result trace classify_calls fetch_calls printed flat_map app].
  all: repeat split.
  all: lazymatch goal with
       | |- exists t, ?l = _ => exists (removelast l); reflexivity
       end.
Qed.

(** X6: a body that is a JSON string or array in which 'url' is found
    passes the membership test; the answer is then 500 (indexing a str or a
    list with 'url' raises), and neither a fetch nor an inference is made. *)
Theorem X6_url_found_in_non_object w g clf v :
  classifier g = Some clf ->
  (exists s, v = PStr s) \/ (exists l, v = PList l) ->
  py_contains "url" v = Returns true ->
  let r := dispatch w (PostClassifyUrl (Returns v)) g in
  (exists msg, result r = Normal (MkResponse (error_body msg) 500)) /\
  fetch_calls (trace r) = [] /\
  classify_calls (trace r) = [] /\
  imported (trace r) = ["requests"].
Proof.
  intros Hclf Hshape Hhas r; subst r.
  assert (Hidx : exists e, py_getitem v "url" = Raises e).
  { destruct Hshape as [(s & ->) | (l & ->)]; eexists; reflexivity. }
  destruct Hidx as (e & Hidx).
  handler_cases w (PostClassifyUrl (Returns v)) g.
  all: cbn [result trace classify_calls fetch_calls imported flat_map app].
  all: split; [eexists; reflexivity|repeat split].
Qed.

(** X7: how many labels an answer carries: once the classifier has returned
    [raw], [labels] has min(10, length raw) entries and [objects]
    min(5, length raw); with at most five raw entries [objects] is all of
    [labels]; and the i-th label (i < 10) is the i-th raw entry as
    [{description, confidence}]. *)
Theorem X7_label_counts w req g clf img raw :
  is_classify req = true ->
  In (EvClassify clf img) (trace (dispatch w req g)) ->
  call_pipe w clf img = Returns raw ->
  exists resp labels objects,
    result (dispatch w req g) = Normal resp /\
    py_getitem (body resp) "labels" = Returns (PList labels) /\
    py_getitem (body resp) "objects" = Returns (PList objects) /\
    length labels = Nat.min 10 (length raw) /\
    length objects = Nat.min 5 (length raw) /\
    ((length raw <= 5)%nat -> objects = labels) /\
    (forall i r,
        (i < 10)%nat -> nth_error raw i = Some r ->
        nth_error labels i = Some (label_entry r)).
Proof.
  intros Hreq Hin Hraw.
  rewrite (dispatch_formats w req g clf img raw Hreq Hin Hraw). cbn [result].
  exists (MkResponse (spec_envelope (active_model g) raw) 200),
         (spec_labels raw), (firstn 5 (spec_labels raw)).
  split; [reflexivity|]. split; [reflexivity|]. split; [reflexivity|].
  unfold spec_labels. rewrite firstn_min_length.
  split; [now rewrite length_map, length_firstn|].
  split; [rewrite length_firstn, length_map, length_firstn; lia|].
  split.
  - intros Hlen. apply firstn_all2. rewrite length_map, length_firstn. lia.
  - intros i r Hi Hnth.
    apply map_nth_error. rewrite nth_error_firstn.
    apply Nat.ltb_lt in Hi. now rewrite Hi.
Qed.

(** X8: when the classifier returns no entry at all the answer is still
    200: [labels] and [objects] are empty and [confidence] is the int 0. *)
Theorem X8_empty_result w req g clf img :
  is_classify req = true ->
  In (EvClassify clf img) (trace (dispatch w req g)) ->
  call_pipe w clf img = Returns [] ->
  result (dispatch w req g)
  = Normal (MkResponse
              (PDict [("labels", PList []);
                      ("colors", PList []);
                      ("objects", PList []);
                      ("confidence", PInt 0);
                      ("source", PStr "local_transformers");
                      ("model", PStr (active_model g))])
              200).
Proof.
  intros Hreq Hin Hraw.
  rewrite (dispatch_formats w req g clf img [] Hreq Hin Hraw). reflexivity.
Qed.

(** * Further properties of serving and of start-up *)

(** With the handle unset a view answers at once. *)
Lemma dispatch_unloaded w req g :
  classifier g = None ->
  dispatch w req g
  = MkRun []
      (Normal (match req with
               | GetHealth => MkResponse (health_body false) 200
               | _ => MkResponse (error_body "Model not loaded") 500
               end)) g.
Proof.
  intros Hnone.
  destruct req; unfold dispatch, health, classify_image, classify_image_url;
    cbv beta iota delta [try_except bind read_classifier ret];
    rewrite Hnone; reflexivity.
Qed.

(** One step of the serving loop. *)
Lemma serve_cons w req
    (rest : list (World pyfloat image pipe http_response * request pyfloat)) g :
  exists t resp,
    dispatch w req g = MkRun t (Normal resp) g /\
    served t = [] /\
    serve ((w, req) :: rest) g
    = MkRun (t ++ EvServed req resp :: trace (serve rest g))
            (result (serve rest g)) (final (serve rest g)).
Proof.
  destruct (dispatch_run w req g) as (t & resp & Hrun & Hserved & _).
  exists t, resp. split; [exact Hrun|]. split; [exact Hserved|].
  cbn [serve]. unfold bind, emit. rewrite flask_handle_run, Hrun.
  destruct (serve rest g) as [t' c' g']. reflexivity.
Qed.

Lemma served_app (t1 t2 : list (event pyfloat image pipe http_response)) :
  served (t1 ++ t2) = (served t1 ++ served t2)%list.
Proof. apply flat_map_app. Qed.

(** Every recorded answer is the answer of the view in the state the
    serving started in. *)
Lemma served_by_dispatch
    (incoming : list (World pyfloat image pipe http_response * request pyfloat)) g q resp :
  In (q, resp) (served (trace (serve incoming g))) ->
  exists w, In (w, q) incoming /\ result (dispatch w q g) = Normal resp.
Proof.
  induction incoming as [|[w req] rest IH]; [intros []|].
  destruct (serve_cons w req rest g) as (t & resp0 & Hrun & Hserved & ->).
  cbn [trace]. rewrite served_app, Hserved. cbn [app served flat_map In].
  intros [Hhere|Hin].
  - injection Hhere as <- <-. exists w. split; [left; reflexivity|].
    now rewrite Hrun.
  - destruct (IH Hin) as (w' & Hw' & Hres). exists w'. split; [right; exact Hw'|exact Hres].
Qed.


(** X10: served without a loaded model (the handle is only ever set by the
    [__main__] block), the application answers every classify request with
    the 500 "Model not loaded" body and every health request with
    [model_loaded: false], and does nothing else: no library is called and
    nothing is printed. *)
Theorem X10_never_loaded
    (incoming : list (World pyfloat image pipe http_response * request pyfloat)) g :
  classifier g = None ->
  Forall (fun ev => is_served ev = true) (trace (serve incoming g)) /\
  forall q resp,
    In (q, resp) (served (trace (serve incoming g))) ->
    resp = match q with
           | GetHealth => MkResponse (health_body false) 200
           | _ => MkResponse (error_body "Model not loaded") 500
           end.
Proof.
  intros Hnone. split.
  - induction incoming as [|[w req] rest IH]; [constructor|].
    destruct (serve_cons w req rest g) as (t & resp & Hrun & _ & ->).
    rewrite (dispatch_unloaded w req g Hnone) in Hrun.
    injection Hrun as <- _. cbn [trace app].
    constructor; [reflexivity|exact IH].
  - intros q resp Hin.
    destruct (served_by_dispatch incoming g q resp Hin) as (w & _ & Hres).
    rewrite (dispatch_unloaded w q g Hnone) in Hres.
    now injection Hres as <-.
Qed.

(** Serving never loads a model. *)
Lemma serve_calls_no_pipeline
    (incoming : list (World pyfloat image pipe http_response * request pyfloat)) g :
  pipeline_calls (trace (serve incoming g)) = [].
Proof.
  induction incoming as [|[w req] rest IH]; [reflexivity|].
  destruct (serve_cons w req rest g) as (t & resp & Hrun & _ & ->).
  cbn [trace]. unfold pipeline_calls in *. rewrite flat_map_app.
  cbn [flat_map app]. rewrite IH, app_nil_r.
  assert (Ht : t = trace (dispatch w req g)) by now rewrite Hrun.
  subst t. clear Hrun.
  destruct req as [|files|get_json].
  - reflexivity.
  - handler_cases w (@PostClassify pyfloat files) g; reflexivity.
  - handler_cases w (PostClassifyUrl get_json) g; reflexivity.
Qed.

(** The three ways the [__main__] block runs. *)
Lemma main_run w
    (incoming : list (World pyfloat image pipe http_response * request pyfloat))
    (env : list (string * string)) :
  let model := configured_model env in
  let loading :=
    [EvPrint ("🤖 Loading model: " ++ model ++ "...");
     EvPrint "   (This may take a few minutes on first run - downloading ~346MB)";
     EvPipeline "image-classification" model (-1)] in
  match pipeline w "image-classification" model (-1) with
  | Raises e =>
      main w incoming (module_init env)
      = MkRun (loading ++ [EvPrint ("❌ Error loading model: " ++ exc_text e);
                           EvPrint "❌ Failed to load model. Exiting..."])
              (Abrupt (SystemExit 1)) (module_init env)
  | Returns c =>
      let loaded := EvPrint ("✅ Model '" ++ model ++ "' loaded successfully!") in
      match configured_port w env with
      | Raises e =>
          main w incoming (module_init env)
          = MkRun (loading ++ [loaded]) (Abrupt (PyException e)) (MkGlobals (Some c) env)
      | Returns port =>
          main w incoming (module_init env)
          = MkRun (loading
                   ++ [loaded;
                       EvPrint (newline ++ "🚀 Python Image Classification Service starting...");
                       EvPrint ("   Model: " ++ model);
                       EvPrint ("   Port: " ++ str_of_Z port);
                       EvPrint ("   Endpoint: http://localhost:" ++ str_of_Z port
                                ++ "/classify" ++ newline);
                       EvAppRun "0.0.0.0" port false]
                   ++ trace (serve incoming (MkGlobals (Some c) env)))
                  (result (serve incoming (MkGlobals (Some c) env)))
                  (final (serve incoming (MkGlobals (Some c) env)))
      end
  end.
Proof.
  intros model loading. subst loading.
  unfold main, load_model, configured_port, app_run.
  cbv beta iota zeta delta
    [bind try_except ret raise emit lift extern print write_classifier getenv_or
     getenv sys_exit negb].
  cbn [environ module_init classifier].
  change (match assoc "HF_MODEL" env with
          | Some v => v
          | None => default_model
          end) with model.
  destruct (pipeline w "image-classification" model (-1)) as [c|e]; [|reflexivity].
  cbv beta iota zeta. cbn [environ module_init classifier].
  destruct (match assoc "PYTHON_SERVICE_PORT" env with
            | Some s => int_of_str w s
            | None => Returns 5000
            end) as [port|e]; [|reflexivity].
  destruct (serve incoming {| classifier := Some c; environ := env |}) as [t' c' g'].
  reflexivity.
Qed.

(** Serving never calls [app.run]. *)
Lemma serve_no_app_run
    (incoming : list (World pyfloat image pipe http_response * request pyfloat)) g
    (host : string) (port : Z) (debug : bool) :
  ~ In (EvAppRun host port debug) (trace (serve incoming g)).
Proof.
  induction incoming as [|[w req] rest IH]; [intros []|].
  destruct (serve_cons w req rest g) as (t & resp & Hrun & _ & ->).
  cbn [trace]. intros Hin. apply in_app_or in Hin.
  destruct Hin as [Hin|[Hin|Hin]]; [|discriminate Hin|exact (IH Hin)].
  assert (Ht : t = trace (dispatch w req g)) by now rewrite Hrun.
  subst t. clear Hrun.
  destruct req as [|files|get_json].
  - destruct Hin.
  - handler_cases w (@PostClassify pyfloat files) g; cbn [trace] in Hin; in_trace Hin.
  - handler_cases w (PostClassifyUrl get_json) g; cbn [trace] in Hin; in_trace Hin.
Qed.

(** X11: what the [__main__] block has done when it calls [app.run], and
    how it calls it: once the model is loaded and the port parsed, the
    model named by HF_MODEL (or the default) has been loaded once, on the
    CPU (device -1), the banner has been printed and nothing has been
    served; [app.run] is then called on all interfaces, on the port named
    by PYTHON_SERVICE_PORT (5000 when it is not set), with debug off, and
    no other call of [app.run] is made.  What [app.run] itself does with
    the port is not part of the statement. *)
Theorem X11_startup_configuration w
    (incoming : list (World pyfloat image pipe http_response * request pyfloat))
    (env : list (string * string)) c port :
  pipeline w "image-classification" (configured_model env) (-1) = Returns c ->
  configured_port w env = Returns port ->
  let r := main w incoming (module_init env) in
  (exists banner rest,
      trace r = (banner ++ EvAppRun "0.0.0.0" port false :: rest)%list /\
      pipeline_calls banner = [("image-classification", configured_model env, -1)] /\
      served banner = [] /\
      (forall host p debug, ~ In (EvAppRun host p debug) banner) /\
      printed banner
      = ["🤖 Loading model: " ++ configured_model env ++ "...";
         "   (This may take a few minutes on first run - downloading ~346MB)";
         "✅ Model '" ++ configured_model env ++ "' loaded successfully!";
         newline ++ "🚀 Python Image Classification Service starting...";
         "   Model: " ++ configured_model env;
         "   Port: " ++ str_of_Z port;
         "   Endpoint: http://localhost:" ++ str_of_Z port ++ "/classify" ++ newline]) /\
  (forall host p debug,
      In (EvAppRun host p debug) (trace r) ->
      host = "0.0.0.0" /\ p = port /\ debug = false) /\
  (assoc "PYTHON_SERVICE_PORT" env = None -> port = 5000).
Proof.
  intros Hload Hport r; subst r.
  pose proof (main_run w incoming env) as Hmain. cbv zeta in Hmain.
  rewrite Hload, Hport in Hmain. rewrite Hmain. cbn [trace app].
  split; [|split].
  - lazymatch goal with
    | |- exists banner rest,
           ?a1 :: ?a2 :: ?a3 :: ?a4 :: ?a5 :: ?a6 :: ?a7 :: ?a8 :: _ :: ?t = _ /\ _ =>
        exists [a1; a2; a3; a4; a5; a6; a7; a8], t
    end.
    split; [reflexivity|]. split; [reflexivity|]. split; [reflexivity|].
    split; [|reflexivity].
    intros host p debug Hin. in_trace Hin.
  - intros host p debug Hin.
    repeat (destruct Hin as [Hin|Hin]; [try discriminate Hin|]).
    + injection Hin as <- <- <-. repeat split.
    + exfalso. exact (serve_no_app_run _ _ _ _ _ Hin).
  - intros Hunset. unfold configured_port in Hport. rewrite Hunset in Hport.
    now injection Hport as <-.
Qed.

(** X12: a PYTHON_SERVICE_PORT that [int] rejects is only noticed after the
    model has been loaded: the script then ends with the uncaught exception
    (status 1), the handle set, without calling [app.run] or serving. *)
Theorem X12_bad_port_after_load w
    (incoming : list (World pyfloat image pipe http_response * request pyfloat))
    (env : list (string * string)) c e :
  pipeline w "image-classification" (configured_model env) (-1) = Returns c ->
  configured_port w env = Raises e ->
  let r := main w incoming (module_init env) in
  result r = Abrupt (PyException e) /\
  exit_status (result r) = 1 /\
  classifier (final r) = Some c /\
  pipeline_calls (trace r) = [("image-classification", configured_model env, -1)] /\
  served (trace r) = [] /\
  (forall host port debug, ~ In (EvAppRun host port debug) (trace r)).
Proof.
  intros Hload Hport r; subst r.
  pose proof (main_run w incoming env) as Hmain. cbv zeta in Hmain.
  rewrite Hload, Hport in Hmain. rewrite Hmain. cbn [trace result final classifier app].
  split; [reflexivity|]. split; [reflexivity|]. split; [reflexivity|].
  split; [reflexivity|]. split; [reflexivity|].
  intros host port debug Hin. in_trace Hin.
Qed.

(** X13: under the [__main__] block the [model] field of every 200 answer
    names the model that was loaded: both are read from HF_MODEL, which
    nothing changes in between. *)
Theorem X13_reported_model_is_loaded_model w
    (incoming : list (World pyfloat image pipe http_response * request pyfloat))
    (env : list (string * string)) q resp :
  In (q, resp) (served (trace (main w incoming (module_init env)))) ->
  is_classify q = true ->
  status resp = 200 ->
  py_getitem (body resp) "model" = Returns (PStr (configured_model env)) /\
  pipeline_calls (trace (main w incoming (module_init env)))
  = [("image-classification", configured_model env, -1)].
Proof.
  intros Hin Hq Hstatus.
  pose proof (main_run w incoming env) as Hmain. cbv zeta in Hmain.
  destruct (pipeline w "image-classification" (configured_model env) (-1)) as [c|e].
  - destruct (configured_port w env) as [port|e].
    + rewrite Hmain in *. cbn [trace] in *.
      rewrite !served_app in Hin. cbn [served flat_map app] in Hin.
      destruct (served_by_dispatch _ _ _ _ Hin) as (w' & _ & Hres).
      destruct (view_shapes w' q (MkGlobals (Some c) env) Hq)
        as (resp' & Hres' & [(raw & ->) | [(msg & ->) | (msg & ->)]]).
      all: rewrite Hres' in Hres; injection Hres as <-; try discriminate Hstatus.
      split; [reflexivity|].
      unfold pipeline_calls. rewrite !flat_map_app. cbn [flat_map app].
      replace (flat_map _ (trace (serve incoming _)))
        with (@nil (string * string * Z)); [reflexivity|].
      symmetry. apply serve_calls_no_pipeline.
    + rewrite Hmain in Hin. cbn [trace served flat_map app] in Hin. contradiction.
  - rewrite Hmain in Hin. cbn [trace served flat_map app] in Hin. contradiction.
Qed.

(** * The module body *)

Ltac body_step_in H :=
  cbv beta iota zeta delta
    [bind try_except_as ret raise emit lift extern print sys_exit clear_classifier] in H;
  cbn [app trace result final classifier environ find_clause] in H.

Ltac body_cases H :=
  repeat first
    [ progress (body_step_in H)
    | match type of H with
      | ?T =>
          let x := stuck_in T in
          first [ match goal with E : x = _ |- _ => rewrite E in H end
                | destruct x eqn:? ]
      end ].

(** The module body run to its end: five imports, and the handle unset. *)
Lemma module_body_ok (im : Imports) g :
  imports_ok im = true ->
  @module_body pyfloat image pipe http_response im g
  = MkRun [EvImport "flask"; EvImport "flask_cors"; EvImport "PIL";
           EvImport "transformers"; EvImport "torch"]
          (Normal tt) (MkGlobals None (environ g)).
Proof.
  unfold imports_ok. intros Hok.
  destruct (@module_body pyfloat image pipe http_response im g) as [t c g'] eqn:Hrun.
  unfold module_body in Hrun.
  destruct (import_flask im); [|discriminate].
  destruct (import_flask_cors im); [|discriminate].
  destruct (import_pil im); [|discriminate].
  destruct (import_transformers im); [|discriminate].
  destruct (import_torch im); [|discriminate].
  body_cases Hrun. now injection Hrun as <- <- <-.
Qed.

(** X14: when one of the module's imports raises, whichever it is and
    whether or not an [except] clause catches it, the script ends with exit
    status 1 before loading any model or serving anything, and with the
    handle unset. *)
Theorem X14_import_failure_is_fatal (im : Imports) w
    (incoming : list (World pyfloat image pipe http_response * request pyfloat))
    (env : list (string * string)) :
  imports_ok im = false ->
  let r := script im w incoming (module_init env) in
  exit_status (result r) = 1 /\
  pipeline_calls (trace r) = [] /\
  served (trace r) = [] /\
  (forall host port debug, ~ In (EvAppRun host port debug) (trace r)) /\
  final r = module_init env.
Proof.
  intros Hbad r; subst r. unfold imports_ok in Hbad.
  destruct (script im w incoming (module_init env)) as [t c g'] eqn:Hrun.
  unfold script, module_body in Hrun.
  body_cases Hrun; try discriminate Hbad.
  all: injection Hrun as <- <- <-.
  all: cbn [result trace final exit_status pipeline_calls served flat_map app].
  all: repeat split.
  all: intros host port debug Hin; in_trace Hin.
Qed.

(** X15: with all imports in place the script is the [__main__] block run
    after the five imports, from an unset handle: same end, same final
    state, and the trace of [main] after the import events. *)
Theorem X15_script_runs_main (im : Imports) w
    (incoming : list (World pyfloat image pipe http_response * request pyfloat))
    (env : list (string * string)) :
  imports_ok im = true ->
  let r := script im w incoming (module_init env) in
  let m := main w incoming (module_init env) in
  trace r = ([EvImport "flask"; EvImport "flask_cors"; EvImport "PIL";
              EvImport "transformers"; EvImport "torch"] ++ trace m)%list /\
  result r = result m /\
  final r = final m /\
  imported (trace r)
  = (["flask"; "flask_cors"; "PIL"; "transformers"; "torch"] ++ imported (trace m))%list.
Proof.
  intros Hok r m; subst r m.
  unfold script, bind. rewrite (module_body_ok im _ Hok).
  cbn [environ module_init].
  change {| classifier := None; environ := env |} with (@module_init pipe env).
  destruct (main w incoming (module_init env)) as [t c g'].
  cbn [trace result final]. repeat split.
Qed.

(** X16: how a failing [import torch] is reported.  The [OSError] clause
    comes first: an exception that is an [OSError] gets the DLL hint, also
    when it is an [ImportError] as well; one that is only an [ImportError]
    gets the pip hint; both end in [sys.exit(1)]; any other exception is
    not caught and ends the script as it is, with nothing printed. *)
Theorem X16_torch_failure_report (im : Imports) w
    (incoming : list (World pyfloat image pipe http_response * request pyfloat))
    (env : list (string * string)) e :
  import_flask im = Returns tt ->
  import_flask_cors im = Returns tt ->
  import_pil im = Returns tt ->
  import_transformers im = Returns tt ->
  import_torch im = Raises e ->
  let r := script im w incoming (module_init env) in
  (isinstance im e "OSError" = true ->
   result r = Abrupt (SystemExit 1) /\
   printed (trace r)
   = ["❌ Error loading PyTorch: " ++ exc_text e;
      "   This is usually a DLL issue on Windows.";
      "   Solution: Run fix_pytorch.bat to reinstall PyTorch CPU-only"]) /\
  (isinstance im e "OSError" = false ->
   isinstance im e "ImportError" = true ->
   result r = Abrupt (SystemExit 1) /\
   printed (trace r)
   = ["❌ Error importing PyTorch: " ++ exc_text e;
      "   Please install: pip install torch --index-url https://download.pytorch.org/whl/cpu"]) /\
  (isinstance im e "OSError" = false ->
   isinstance im e "ImportError" = false ->
   result r = Abrupt (PyException e) /\
   printed (trace r) = []).
Proof.
  intros Hflask Hcors Hpil Htrans Htorch r; subst r.
  destruct (script im w incoming (module_init env)) as [t c g'] eqn:Hrun.
  unfold script, module_body in Hrun.
  body_cases Hrun.
  all: injection Hrun as <- <- <-.
  all: cbn [result trace printed flat_map app].
  all: repeat split; intros; try discriminate; reflexivity.
Qed.

(** X17: how a failing [from transformers import pipeline] is reported:
    an [ImportError] gets the install hint and [sys.exit(1)]; any other
    exception is not caught; in both cases [torch] is not imported any
    more. *)
Theorem X17_transformers_failure_report (im : Imports) w
    (incoming : list (World pyfloat image pipe http_response * request pyfloat))
    (env : list (string * string)) e :
  import_flask im = Returns tt ->
  import_flask_cors im = Returns tt ->
  import_pil im = Returns tt ->
  import_transformers im = Raises e ->
  let r := script im w incoming (module_init env) in
  imported (trace r) = ["flask"; "flask_cors"; "PIL"; "transformers"] /\
  (isinstance im e "ImportError" = true ->
   result r = Abrupt (SystemExit 1) /\
   printed (trace r)
   = ["❌ Error importing transformers: " ++ exc_text e;
      "   Please install: pip install transformers"]) /\
  (isinstance im e "ImportError" = false ->
   result r = Abrupt (PyException e) /\
   printed (trace r) = []).
Proof.
  intros Hflask Hcors Hpil Htrans r; subst r.
  destruct (script im w incoming (module_init env)) as [t c g'] eqn:Hrun.
  unfold script, module_body in Hrun.
  body_cases Hrun.
  all: injection Hrun as <- <- <-.
  all: cbn [result trace printed imported flat_map app].
  all: repeat split; intros; try discriminate; reflexivity.
Qed.

(** X18: the [__main__] block calls [pipeline] exactly once, however it
    goes on from there: with the task "image-classification", the model
    named by HF_MODEL (or the default) and device -1; serving requests
    never calls it. *)
Theorem X18_model_loaded_once w
    (incoming : list (World pyfloat image pipe http_response * request pyfloat))
    (env : list (string * string)) :
  pipeline_calls (trace (main w incoming (module_init env)))
  = [("image-classification", configured_model env, -1)] /\
  forall g, pipeline_calls (trace (serve incoming g)) = [].
Proof.
  split; [|apply serve_calls_no_pipeline].
  pose proof (main_run w incoming env) as Hmain. cbv zeta in Hmain.
  destruct (pipeline w "image-classification" (configured_model env) (-1)) as [c|e].
  - destruct (configured_port w env) as [port|e]; rewrite Hmain; cbn [trace].
    + unfold pipeline_calls. rewrite !flat_map_app. cbn [flat_map app].
      fold (pipeline_calls (trace (serve incoming (MkGlobals (Some c) env)))).
      now rewrite serve_calls_no_pipeline.
    + reflexivity.
  - rewrite Hmain. reflexivity.
Qed.

(** X19: the upload view stays local: it never imports [requests] and
    never fetches anything, whatever the upload is. *)
Theorem X19_upload_never_fetches w (files : list (string * bytes)) g :
  fetch_calls (trace (dispatch w (@PostClassify pyfloat files) g)) = [] /\
  imported (trace (dispatch w (@PostClassify pyfloat files) g)) = [].
Proof.
  handler_cases w (@PostClassify pyfloat files) g; split; reflexivity.
Qed.

(** X20: the URL view classifies nothing but what it fetched: when the
    classifier is called, the image comes from the content of the one
    response fetched from the body's [url] with timeout 10, and
    [raise_for_status] accepted that response. *)
Theorem X20_url_classifies_fetched_content w get_json g clf img :
  In (EvClassify clf img) (trace (dispatch w (PostClassifyUrl get_json) g)) ->
  exists data url fetched decoded,
    get_json = Returns data /\
    py_getitem data "url" = Returns url /\
    requests_get w url 10 = Returns fetched /\
    raise_for_status w fetched = Returns tt /\
    image_open w (content w fetched) = Returns decoded /\
    normalized w decoded = Returns img /\
    fetch_calls (trace (dispatch w (PostClassifyUrl get_json) g)) = [(url, 10)].
Proof.
  intros Hin.
  handler_cases w (PostClassifyUrl get_json) g; cbn [trace] in *.
  all: in_trace Hin.
  all: injection Hin as -> ->.
  all: repeat match goal with u : unit |- _ => destruct u end.
  all: do 4 eexists; repeat split; try eassumption; try reflexivity.
  all: unfold normalized.
  all: match goal with H : String.eqb _ _ = _ |- _ => rewrite H end.
  all: first [reflexivity | eassumption].
Qed.

End Properties.

(** * The properties on the concrete world *)

(** An event is in a computed trace. *)
Ltac find_event := vm_compute; repeat first [left; reflexivity | right].

Lemma C1_envelope_invariant_witness :
  result (dispatch Demo.world Demo.upload_png Demo.ready) = Normal Demo.answer /\
  envelope_invariant (body Demo.answer).
Proof.
  assert (H : result (dispatch Demo.world Demo.upload_png Demo.ready)
              = Normal Demo.answer) by (vm_compute; reflexivity).
  split; [exact H|].
  apply (C1_envelope_invariant Demo.world Demo.upload_png Demo.ready Demo.answer);
    [reflexivity | exact H | reflexivity].
Defined.

Lemma C2_model_unset_500_witness :
  exists msg,
    msg <> "" /\
    dispatch Demo.world Demo.url_ok Demo.unloaded
    = MkRun [] (Normal (MkResponse (error_body msg) 500)) Demo.unloaded.
Proof.
  apply (C2_model_unset_500 Demo.world Demo.url_ok Demo.unloaded); reflexivity.
Defined.

Lemma C3_missing_input_400_witness :
  (exists msg,
      dispatch Demo.world Demo.upload_misnamed Demo.ready
      = MkRun [] (Normal (MkResponse (error_body msg) 400)) Demo.ready) /\
  (exists msg,
      dispatch Demo.world Demo.url_misnamed Demo.ready
      = MkRun [] (Normal (MkResponse (error_body msg) 400)) Demo.ready).
Proof.
  destruct (C3_missing_input_400 Demo.world Demo.ready default_model eq_refl)
    as [Hupload Hurl].
  split; [apply Hupload | apply Hurl]; reflexivity.
Defined.

Lemma C4_exception_text_in_500_witness :
  result (dispatch Demo.world Demo.upload_junk Demo.ready)
  = Normal (MkResponse (error_body "cannot identify image file") 500) /\
  result (dispatch Demo.world Demo.upload_jpeg Demo.ready)
  = Normal (MkResponse (error_body "inference failed") 500).
Proof.
  split.
  - apply (C4_exception_text_in_500 Demo.world Demo.upload_junk Demo.ready
             (MkExc "UnidentifiedImageError" "cannot identify image file"));
      [reflexivity|].
    left. exists [x00]. split; [find_event | reflexivity].
  - apply (C4_exception_text_in_500 Demo.world Demo.upload_jpeg Demo.ready
             (MkExc "RuntimeError" "inference failed"));
      [reflexivity|].
    right; right. exists default_model, ("RGB", Demo.jpeg).
    split; [find_event | reflexivity].
Defined.

Lemma C5_classifier_gets_rgb_witness :
  mode Demo.world ("RGB", Demo.png) = "RGB" /\
  classify_calls (trace (dispatch Demo.world Demo.upload_png Demo.ready))
  = [(default_model, ("RGB", Demo.png))].
Proof.
  assert (Hpil : forall img img' : Demo.image,
             convert Demo.world img "RGB" = Returns img' ->
             mode Demo.world img' = "RGB").
  { intros img img' H. injection H as <-. reflexivity. }
  destruct (C5_classifier_gets_rgb Demo.world Demo.upload_png Demo.ready eq_refl Hpil)
    as [Hrgb Honce].
  split.
  - apply (Hrgb default_model ("RGB", Demo.png)).
    find_event.
  - destruct (Honce Demo.png ("RGBA", Demo.png) ("RGB", Demo.png)) as (clf & Hclf & Hcalls).
    + find_event.
    + reflexivity.
    + reflexivity.
    + injection Hclf as <-. exact Hcalls.
Defined.

Lemma ranked_descending : Sorted (score_ge Demo.score_order) Demo.ranked.
Proof.
  unfold Demo.ranked.
  repeat (constructor; [|first [constructor; discriminate | constructor]]).
  constructor.
Defined.

Lemma C6_formatting_function_witness :
  result (dispatch Demo.world Demo.url_ok Demo.ready) = Normal Demo.answer /\
  result (dispatch Demo.world Demo.upload_png Demo.ready)
  = result (dispatch Demo.world Demo.url_ok Demo.ready) /\
  exists labels,
    py_getitem (body Demo.answer) "labels" = Returns (PList labels) /\
    length labels = 10%nat /\
    Sorted (confidence_ge Demo.score_order) labels.
Proof.
  destruct (C6_formatting_function Demo.score_order Demo.world Demo.url_ok Demo.ready
              default_model ("RGB", Demo.png) Demo.ranked)
    as (Hres & Hlabels & Hsorted & Hsame).
  - reflexivity.
  - find_event.
  - reflexivity.
  - split; [exact Hres|]. split.
    + apply (Hsame Demo.world Demo.upload_png default_model ("RGB", Demo.png));
        [reflexivity | find_event | reflexivity].
    + destruct (Hsorted ranked_descending) as (labels & Hget & Hs).
      exists labels. split; [exact Hget|]. split; [|exact Hs].
      rewrite Hlabels in Hget. injection Hget as <-. reflexivity.
Defined.


Lemma C8_load_failure_is_fatal_witness :
  exit_status (result (main Demo.world [(Demo.world, GetHealth)]
                         (module_init [("HF_MODEL", "missing")]))) = 1 /\
  served (trace (main Demo.world [(Demo.world, GetHealth)]
                   (module_init [("HF_MODEL", "missing")]))) = [].
Proof.
  destruct (C8_load_failure_is_fatal Demo.world [(Demo.world, GetHealth)]
              [("HF_MODEL", "missing")]
              (MkExc "OSError" "missing is not a valid model identifier") eq_refl)
    as (_ & Hexit & _ & Hserved & _).
  split; [exact Hexit | exact Hserved].
Defined.

Lemma C9_ready_is_permanent_witness :
  classifier (final (main Demo.world
                       [(Demo.world, Demo.upload_junk); (Demo.world, GetHealth)]
                       (module_init []))) = Some default_model /\
  py_getitem (health_body true) "model_loaded" = Returns (PBool true : pyval Q).
Proof.
  destruct (C9_ready_is_permanent Demo.world
              [(Demo.world, Demo.upload_junk); (Demo.world, GetHealth)])
    as (_ & _ & _ & Hmain).
  destruct (Hmain [] default_model eq_refl) as [Hclf Hhealth].
  split; [exact Hclf|].
  apply (Hhealth (MkResponse (health_body true) 200)).
  find_event.
Defined.

(** C10 as stated fails: a body that is the JSON string "hello" is not a
    JSON object, the model is loaded, and the answer is 400, not 500. *)
Lemma C10_counterexample :
  not_json_object (Returns (PStr "hello" : pyval Q)) /\
  classifier Demo.ready = Some default_model /\
  dispatch Demo.world Demo.body_string Demo.ready
  = MkRun [] (Normal (MkResponse (error_body "No image URL provided") 400)) Demo.ready /\
  ~ (exists resp,
        result (dispatch Demo.world Demo.body_string Demo.ready) = Normal resp /\
        status resp = 500).
Proof.
  split; [intros d; discriminate|]. split; [reflexivity|]. split; [reflexivity|].
  intros (resp & Hres & Hstatus).
  vm_compute in Hres. injection Hres as <-. discriminate Hstatus.
Defined.

Lemma C10_bad_body_500_witness :
  (exists msg,
      dispatch Demo.world Demo.body_null Demo.ready
      = MkRun [EvPrint ("❌ Classification error: " ++ msg)]
              (Normal (MkResponse (error_body msg) 500)) Demo.ready) /\
  dispatch Demo.world Demo.body_string Demo.ready
  = MkRun [] (Normal (MkResponse (error_body "No image URL provided") 400)) Demo.ready.
Proof.
  destruct (C10_bad_body_500 Demo.world Demo.ready default_model (Returns PNone) eq_refl)
    as [Hnull _].
  destruct (C10_bad_body_500 Demo.world Demo.ready default_model
              (Returns (PStr "hello")) eq_refl)
    as [_ Hstring].
  split.
  - apply Hnull. right. exists PNone. split; reflexivity.
  - apply (Hstring (PStr "hello")); [reflexivity | left; exists "hello"; reflexivity
                                   | reflexivity].
Defined.


(** ** The further properties on the concrete world *)

Lemma X1_classify_response_shapes_witness :
  result (dispatch Demo.world Demo.upload_misnamed Demo.ready)
  = Normal Demo.no_file_answer /\
  ((exists raw,
       Demo.no_file_answer
       = MkResponse (spec_envelope (active_model Demo.ready) raw) 200) \/
   (exists msg,
       Demo.no_file_answer = MkResponse (error_body msg) 400 /\
       trace (dispatch Demo.world Demo.upload_misnamed Demo.ready) = []) \/
   (exists msg, Demo.no_file_answer = MkResponse (error_body msg) 500)).
Proof.
  assert (H : result (dispatch Demo.world Demo.upload_misnamed Demo.ready)
              = Normal Demo.no_file_answer)
    by reflexivity.
  split; [exact H|].
  apply (X1_classify_response_shapes Demo.world Demo.upload_misnamed Demo.ready
           Demo.no_file_answer);
    [reflexivity | exact H].
Defined.

Lemma X2_error_500_is_logged_witness :
  exists t,
    trace (dispatch Demo.world Demo.upload_junk Demo.ready)
    = (t ++ [EvPrint "❌ Classification error: cannot identify image file"])%list.
Proof.
  destruct (X2_error_500_is_logged Demo.world Demo.upload_junk Demo.ready
              "cannot identify image file" eq_refl eq_refl)
    as [(Hnone & _) | (clf & t & _ & Ht)].
  - discriminate Hnone.
  - exists t. exact Ht.
Defined.

Lemma X3_error_key_iff_not_200_witness :
  py_getitem (body Demo.answer) "error" = Raises (KeyError "error") /\
  py_getitem (body Demo.answer) "model" = Returns (PStr default_model).
Proof.
  destruct (X3_error_key_iff_not_200 Demo.world Demo.upload_png Demo.ready Demo.answer
              eq_refl)
    as [Hok _].
  - vm_compute. reflexivity.
  - destruct (Hok eq_refl) as (Herr & _ & _ & Hmodel). split; [exact Herr|exact Hmodel].
Defined.

Lemma X4_upload_success_witness :
  result (dispatch Demo.world Demo.upload_png Demo.ready) = Normal Demo.answer /\
  printed (trace (dispatch Demo.world Demo.upload_png Demo.ready))
  = ["🔍 Classifying image...";
     "✅ Classification complete: 10 labels found";
     "   Top 3: golden retriever, Labrador retriever, cocker spaniel"].
Proof.
  destruct (X4_upload_success Demo.world [("image", Demo.png)] Demo.ready default_model
              Demo.png ("RGBA", Demo.png) ("RGB", Demo.png) Demo.ranked
              eq_refl eq_refl eq_refl eq_refl eq_refl)
    as (Hres & _ & _ & Hprinted).
  split; [exact Hres|exact Hprinted].
Defined.

Lemma X5_url_success_witness :
  result (dispatch Demo.world Demo.url_ok Demo.ready) = Normal Demo.answer /\
  fetch_calls (trace (dispatch Demo.world Demo.url_ok Demo.ready))
  = [(PStr "http://img/ok.png", 10)].
Proof.
  destruct (X5_url_success Demo.world Demo.ready default_model
              (PDict [("url", PStr "http://img/ok.png")]) (PStr "http://img/ok.png")
              (200, Demo.png) ("RGBA", Demo.png) ("RGB", Demo.png) Demo.ranked
              eq_refl eq_refl eq_refl eq_refl eq_refl eq_refl eq_refl eq_refl eq_refl)
    as (Hres & Hfetch & _).
  split; [exact Hres|exact Hfetch].
Defined.

Lemma X6_url_found_in_non_object_witness :
  (exists msg,
      result (dispatch Demo.world Demo.body_array_url Demo.ready)
      = Normal (MkResponse (error_body msg) 500)) /\
  fetch_calls (trace (dispatch Demo.world Demo.body_string_url Demo.ready)) = [].
Proof.
  destruct (X6_url_found_in_non_object Demo.world Demo.ready default_model
              (PList [PStr "url"]) eq_refl)
    as (Harray & _).
  - right. eexists. reflexivity.
  - reflexivity.
  - destruct (X6_url_found_in_non_object Demo.world Demo.ready default_model
                (PStr "my url") eq_refl)
      as (_ & Hfetch & _).
    + left. eexists. reflexivity.
    + reflexivity.
    + split; [exact Harray|exact Hfetch].
Defined.

Lemma X7_label_counts_witness :
  exists resp labels objects,
    result (dispatch Demo.world Demo.upload_png Demo.ready) = Normal resp /\
    py_getitem (body resp) "labels" = Returns (PList labels) /\
    py_getitem (body resp) "objects" = Returns (PList objects) /\
    length labels = 10%nat /\
    length objects = 5%nat.
Proof.
  destruct (X7_label_counts Demo.world Demo.upload_png Demo.ready default_model
              ("RGB", Demo.png) Demo.ranked)
    as (resp & labels & objects & Hres & Hlabels & Hobjects & Hn & Hm & _).
  - reflexivity.
  - find_event.
  - reflexivity.
  - exists resp, labels, objects. repeat split; assumption.
Defined.

Lemma X8_empty_result_witness :
  result (dispatch Demo.blank_world Demo.upload_png Demo.ready)
  = Normal (MkResponse
              (PDict [("labels", PList []);
                      ("colors", PList []);
                      ("objects", PList []);
                      ("confidence", PInt 0);
                      ("source", PStr "local_transformers");
                      ("model", PStr (active_model Demo.ready))])
              200).
Proof.
  apply (X8_empty_result Demo.blank_world Demo.upload_png Demo.ready default_model
           ("RGB", Demo.png)).
  - reflexivity.
  - find_event.
  - reflexivity.
Defined.

Lemma X10_never_loaded_witness :
  Forall (fun ev => is_served ev = true) (trace (serve Demo.morning Demo.unloaded)) /\
  length (served (trace (serve Demo.morning Demo.unloaded))) = 4%nat.
Proof.
  destruct (X10_never_loaded Demo.morning Demo.unloaded eq_refl) as [Hquiet _].
  split; [exact Hquiet|reflexivity].
Defined.

Lemma X11_startup_configuration_witness :
  In (EvAppRun "0.0.0.0" 8080 false)
     (trace (main Demo.world Demo.morning (module_init Demo.env_port))) /\
  forall host p debug,
    In (EvAppRun host p debug)
       (trace (main Demo.world Demo.morning (module_init Demo.env_port))) ->
    host = "0.0.0.0" /\ p = 8080 /\ debug = false.
Proof.
  destruct (X11_startup_configuration Demo.world Demo.morning Demo.env_port
              default_model 8080 eq_refl eq_refl)
    as ((banner & rest & Htrace & _) & Hargs & _).
  split; [|exact Hargs].
  rewrite Htrace. apply in_or_app. right. left. reflexivity.
Defined.

Lemma X12_bad_port_after_load_witness :
  exit_status (result (main Demo.world Demo.morning (module_init Demo.env_bad_port))) = 1 /\
  classifier (final (main Demo.world Demo.morning (module_init Demo.env_bad_port)))
  = Some default_model /\
  served (trace (main Demo.world Demo.morning (module_init Demo.env_bad_port))) = [].
Proof.
  destruct (X12_bad_port_after_load Demo.world Demo.morning Demo.env_bad_port
              default_model
              (MkExc "ValueError" "invalid literal for int() with base 10")
              eq_refl eq_refl)
    as (_ & Hexit & Hclf & _ & Hserved & _).
  split; [exact Hexit|]. split; [exact Hclf|exact Hserved].
Defined.

Lemma X13_reported_model_is_loaded_model_witness :
  py_getitem (body Demo.answer) "model" = Returns (PStr (configured_model [])) /\
  pipeline_calls (trace (main Demo.world Demo.morning (module_init [])))
  = [("image-classification", configured_model [], -1)].
Proof.
  apply (X13_reported_model_is_loaded_model Demo.world Demo.morning []
           Demo.upload_png Demo.answer).
  - find_event.
  - reflexivity.
  - reflexivity.
Defined.

Lemma X14_import_failure_is_fatal_witness :
  exit_status (result (script Demo.no_transformers Demo.world Demo.morning (module_init [])))
  = 1 /\
  exit_status (result (script Demo.broken_torch Demo.world Demo.morning (module_init [])))
  = 1.
Proof.
  destruct (X14_import_failure_is_fatal Demo.no_transformers Demo.world Demo.morning []
              eq_refl)
    as (Hexit & _).
  destruct (X14_import_failure_is_fatal Demo.broken_torch Demo.world Demo.morning []
              eq_refl)
    as (Hexit' & _).
  split; [exact Hexit|exact Hexit'].
Defined.

Lemma X15_script_runs_main_witness :
  result (script Demo.installed Demo.world Demo.morning (module_init []))
  = result (main Demo.world Demo.morning (module_init [])) /\
  final (script Demo.installed Demo.world Demo.morning (module_init []))
  = final (main Demo.world Demo.morning (module_init [])).
Proof.
  destruct (X15_script_runs_main Demo.installed Demo.world Demo.morning [] eq_refl)
    as (_ & Hres & Hfinal & _).
  split; [exact Hres|exact Hfinal].
Defined.

Lemma X16_torch_failure_report_witness :
  result (script Demo.broken_torch Demo.world Demo.morning (module_init []))
  = Abrupt (SystemExit 1) /\
  printed (trace (script Demo.broken_torch Demo.world Demo.morning (module_init [])))
  = ["❌ Error loading PyTorch: [WinError 126] The specified module could not be found";
     "   This is usually a DLL issue on Windows.";
     "   Solution: Run fix_pytorch.bat to reinstall PyTorch CPU-only"].
Proof.
  destruct (X16_torch_failure_report Demo.broken_torch Demo.world Demo.morning []
              (MkExc "OSError" "[WinError 126] The specified module could not be found")
              eq_refl eq_refl eq_refl eq_refl eq_refl)
    as (Hos & _).
  exact (Hos eq_refl).
Defined.

Lemma X17_transformers_failure_report_witness :
  imported (trace (script Demo.no_transformers Demo.world Demo.morning (module_init [])))
  = ["flask"; "flask_cors"; "PIL"; "transformers"] /\
  result (script Demo.no_transformers Demo.world Demo.morning (module_init []))
  = Abrupt (SystemExit 1).
Proof.
  destruct (X17_transformers_failure_report Demo.no_transformers Demo.world Demo.morning []
              (MkExc "ModuleNotFoundError" "No module named 'transformers'")
              eq_refl eq_refl eq_refl eq_refl)
    as (Himported & Hcaught & _).
  split; [exact Himported|]. exact (proj1 (Hcaught eq_refl)).
Defined.

Lemma X20_url_classifies_fetched_content_witness :
  exists data url fetched decoded,
    (Returns (PDict [("url", PStr "http://img/ok.png")]) : pyres (pyval Q)) = Returns data /\
    py_getitem data "url" = Returns url /\
    requests_get Demo.world url 10 = Returns fetched /\
    raise_for_status Demo.world fetched = Returns tt /\
    image_open Demo.world (content Demo.world fetched) = Returns decoded /\
    normalized Demo.world decoded = Returns ("RGB", Demo.png) /\
    fetch_calls (trace (dispatch Demo.world Demo.url_ok Demo.ready)) = [(url, 10)].
Proof.
  apply (X20_url_classifies_fetched_content Demo.world
           (Returns (PDict [("url", PStr "http://img/ok.png")])) Demo.ready
           default_model ("RGB", Demo.png)).
  find_event.
Defined.
